(** * AstraX account backend: credential lifecycle

    Shallow embedding of the account handlers of [backend/main.py]
    ([signup], [verify_email], [login], [password_reset_request],
    [password_reset_confirm]) over the [users] table of
    [backend/models.py], with the SQLAlchemy session, the clock, the
    random source and the mail transport made explicit. *)

From Stdlib Require Import ZArith String Ascii Decimal.
From Stdlib Require DecimalZ.
From stdpp Require Import base option list numbers.

Local Open Scope Z_scope.

(** ** Python values *)

Module Py.

(** A Python [str] is a sequence of Unicode code points. *)
Abbreviation str := (list N).

(** [str.isspace] on one code point (the white-space table of CPython). *)
Definition isspace (c : N) : bool :=
  ((9 <=? c) && (c <=? 13) || (28 <=? c) && (c <=? 32)
   || (c =? 133) || (c =? 160) || (c =? 5760)
   || (8192 <=? c) && (c <=? 8202)
   || (c =? 8232) || (c =? 8233) || (c =? 8239) || (c =? 8287)
   || (c =? 12288))%N.

Fixpoint lstrip (s : str) : str :=
  match s with
  | c :: s' => if isspace c then lstrip s' else s
  | [] => []
  end.

Definition rstrip (s : str) : str := reverse (lstrip (reverse s)).

(** [s.strip()] *)
Definition strip (s : str) : str := rstrip (lstrip s).

(** [s[:n]] for a non-negative literal [n]. *)
Definition slice_to (n : nat) (s : str) : str := take n s.

(** Truth value of an optional string: [None] and [""] are false. *)
Definition truthy (o : option str) : bool :=
  match o with
  | Some (_ :: _) => true
  | _ => false
  end.

(** [a or b] on optional strings. *)
Definition or_else (a b : option str) : option str :=
  if truthy a then a else b.

(** [x == y] on optional strings. *)
Definition eqb (x y : option str) : bool := bool_decide (x = y).

Fixpoint uint_chars (d : Decimal.uint) : str :=
  match d with
  | Decimal.Nil => []
  | Decimal.D0 d => 48%N :: uint_chars d
  | Decimal.D1 d => 49%N :: uint_chars d
  | Decimal.D2 d => 50%N :: uint_chars d
  | Decimal.D3 d => 51%N :: uint_chars d
  | Decimal.D4 d => 52%N :: uint_chars d
  | Decimal.D5 d => 53%N :: uint_chars d
  | Decimal.D6 d => 54%N :: uint_chars d
  | Decimal.D7 d => 55%N :: uint_chars d
  | Decimal.D8 d => 56%N :: uint_chars d
  | Decimal.D9 d => 57%N :: uint_chars d
  end.

(** [f"{n}"] for an integer [n]. *)
Definition format_int (n : Z) : str :=
  match Z.to_int n with
  | Decimal.Pos d => uint_chars d
  | Decimal.Neg d => 45%N :: uint_chars d
  end.

(** [random.randint(a, b)], driven by the entropy the generator draws. *)
Definition randint (a b : Z) (entropy : Z) : Z := a + entropy mod (b - a + 1).

(** A Rocq string literal read as a Python [str] (ASCII literals only). *)
Fixpoint lit (s : string) : str :=
  match s with
  | EmptyString => []
  | String a s' => N_of_ascii a :: lit s'
  end.

End Py.

Import Py.


(** ** The [users] table ([backend/models.py]) *)

(** Instants are UTC timestamps in microseconds, the resolution of
    [datetime]. *)
Abbreviation instant := Z.

Record User := mkUser {
  id : Z;
  email : str;
  password_hash : str;
  referral_code : option str;
  created_at : option instant;
  verification_code : option str;
  verification_expires_at : option instant;
  is_verified : bool;
  reset_code : option str;
  reset_expires_at : option instant;
  is_admin : bool
}.

Definition set_password_hash (v : str) (u : User) : User :=
  mkUser (id u) (email u) v (referral_code u) (created_at u)
    (verification_code u) (verification_expires_at u) (is_verified u)
    (reset_code u) (reset_expires_at u) (is_admin u).

Definition set_verification_code (v : option str) (u : User) : User :=
  mkUser (id u) (email u) (password_hash u) (referral_code u) (created_at u)
    v (verification_expires_at u) (is_verified u)
    (reset_code u) (reset_expires_at u) (is_admin u).

Definition set_verification_expires_at (v : option instant) (u : User) : User :=
  mkUser (id u) (email u) (password_hash u) (referral_code u) (created_at u)
    (verification_code u) v (is_verified u)
    (reset_code u) (reset_expires_at u) (is_admin u).

Definition set_is_verified (v : bool) (u : User) : User :=
  mkUser (id u) (email u) (password_hash u) (referral_code u) (created_at u)
    (verification_code u) (verification_expires_at u) v
    (reset_code u) (reset_expires_at u) (is_admin u).

Definition set_reset_code (v : option str) (u : User) : User :=
  mkUser (id u) (email u) (password_hash u) (referral_code u) (created_at u)
    (verification_code u) (verification_expires_at u) (is_verified u)
    v (reset_expires_at u) (is_admin u).

Definition set_reset_expires_at (v : option instant) (u : User) : User :=
  mkUser (id u) (email u) (password_hash u) (referral_code u) (created_at u)
    (verification_code u) (verification_expires_at u) (is_verified u)
    (reset_code u) v (is_admin u).

(** The table: its rows in storage order and the next value of the
    auto-incremented primary key. *)
Record DB := mkDB {
  rows : list User;
  next_id : Z
}.

(** ** Environment and effects *)

Inductive Purpose := Verification | Reset.

(** A delivered message: which of the two mails, the recipient and the code
    its body quotes. *)
Record Email := mkEmail {
  purpose : Purpose;
  rcpt : str;
  quoted_code : str
}.

(** What one request reads from outside the table: the clock, the random
    source, the salt drawn by the password hasher, the SMTP settings of the
    process environment, how the SMTP exchange goes, and the clock of the
    database server.  [smtp_up] says that connecting, logging in and
    [send_message] go through, so that the server has taken the message;
    [quit_ok] that the server then answers the closing [QUIT] of the
    [with] block with 221. *)
Record Env := mkEnv {
  utcnow : instant;
  entropy : Z;
  salt : str;
  EMAIL_HOST : option str;
  EMAIL_USER : option str;
  EMAIL_PASSWORD : option str;
  smtp_up : bool;
  quit_ok : bool;
  db_now : instant
}.

Inductive exn :=
  | HTTPException (status_code : Z) (detail : string)
  | RuntimeError (msg : string)
  | SMTPException
  | DataError.

Inductive Result (A : Type) :=
  | Return (a : A)
  | Raise (e : exn).
Arguments Return {A} a.
Arguments Raise {A} e.

(** State of a request in flight: the committed table, the session's
    working copy of it, and the mails delivered so far. *)
Record HState := mkHState {
  store : DB;
  session : DB;
  sent : list Email
}.

Definition M (A : Type) : Type := Env → HState → Result A * HState.

Definition ret {A} (a : A) : M A := λ _ s, (Return a, s).

Definition bind {A B} (m : M A) (k : A → M B) : M B :=
  λ env s,
    match m env s with
    | (Return a, s') => k a env s'
    | (Raise e, s') => (Raise e, s')
    end.

Definition raise {A} (e : exn) : M A := λ _ s, (Raise e, s).

(** [try: m  except Exception: raise e] *)
Definition try_except_raise {A} (m : M A) (e : exn) : M A :=
  λ env s,
    match m env s with
    | (Return a, s') => (Return a, s')
    | (Raise _, s') => (Raise e, s')
    end.

Definition ask : M Env := λ env s, (Return env, s).

Notation "'let*' x ':=' m 'in' k" := (bind m (λ x, k))
  (at level 10, x name, m at level 100, k at level 200).
Notation "m ';;' k" := (bind m (λ _, k))
  (at level 100, k at level 200, right associativity).

(** [db.query(User).filter(User.email == e).first()]: the first matching
    row, with its position, which stands for the identity of the loaded
    object. *)
Definition query_first (e : str) : M (option (nat * User)) :=
  λ _ s, (Return (list_find (λ u, email u = e) (rows (session s))), s).

(** Attribute assignment on the loaded object at position [i]. *)
Definition setattr (i : nat) (f : User → User) : M unit :=
  λ _ s,
    (Return tt,
     mkHState (store s)
       (mkDB (alter f i (rows (session s))) (next_id (session s)))
       (sent s)).

(** [db.add(user)]: the row waits in the session for the next commit.  It
    is written here as the server will store it: with the next primary key
    and, by the server defaults of the columns it leaves out, the server's
    [now()] as creation time and [is_admin = false].  Returns the object as
    [db.refresh] reloads it once the insert is committed. *)
Definition add (u : User) : M User :=
  λ env s,
    let db := session s in
    let u' :=
      mkUser (next_id db) (email u) (password_hash u) (referral_code u)
        (Some (db_now env)) (verification_code u)
        (verification_expires_at u) (is_verified u) (reset_code u)
        (reset_expires_at u) false in
    (Return u',
     mkHState (store s) (mkDB (rows db ++ [u']) (next_id db + 1)) (sent s)).

(** The database server (PostgreSQL, which checks the declared widths)
    takes a new row only if what the request put into it fits the column:
    [referral_code] is a [String(50)], and the request does not bound
    [referralCode].  (The address has passed [EmailStr], the hash is the
    hasher's, the code has six digits: they fit theirs.) *)
Definition fits_columns (u : User) : bool :=
  bool_decide (length (default [] (referral_code u)) ≤ 50)%nat.

(** [db.commit()]: the rows added since the last commit are inserted; if
    the server refuses one, the transaction is rolled back and the
    [DataError] propagates. *)
Definition commit : M unit :=
  λ _ s,
    if forallb fits_columns
         (drop (length (rows (store s))) (rows (session s)))
    then (Return tt, mkHState (session s) (session s) (sent s))
    else (Raise DataError, mkHState (store s) (store s) (sent s)).

Definition smtp_configured (env : Env) : bool :=
  truthy (EMAIL_HOST env) && truthy (EMAIL_USER env) && truthy (EMAIL_PASSWORD env).

(** Both mail functions have the same shape: refuse when SMTP is not
    configured, otherwise hand the message to the transport inside a
    [with smtplib.SMTP_SSL(...)] block.  The exchange may fail before the
    server has taken the message; or the server takes it and leaving the
    block raises all the same, when the closing [QUIT] is not answered with
    221: then the mail is delivered and the caller sees an exception. *)
Definition send_mail (p : Purpose) (to_email code : str) : M unit :=
  λ env s,
    if negb (smtp_configured env) then
      (Raise (RuntimeError "SMTP не настроен (нужны SMTP_HOST/SMTP_USER/SMTP_PASSWORD)"), s)
    else if smtp_up env then
      let s' :=
        mkHState (store s) (session s) (sent s ++ [mkEmail p to_email code]) in
      if quit_ok env then (Return tt, s') else (Raise SMTPException, s')
    else (Raise SMTPException, s).

Definition send_reset_code_email := send_mail Reset.
Definition send_verification_email := send_mail Verification.

Definition minutes (n : Z) : Z := n * 60 * 1000000.

(** [t and t < now] on an optional instant. *)
Definition expired (t : option instant) (now : instant) : bool :=
  match t with
  | Some t => bool_decide (t < now)
  | None => false
  end.

(** ** Request and response bodies *)

Record SignupRequest := mkSignupRequest {
  su_email : str;
  su_password : str;
  su_referralCode : option str
}.

Record SignupResponse := mkSignupResponse {
  su_ok : bool;
  su_id : Z
}.

Record LoginRequest := mkLoginRequest {
  li_email : str;
  li_password : str
}.

Record LoginResponse := mkLoginResponse {
  li_ok : bool;
  li_id : Z;
  li_resp_email : str
}.

Record VerifyEmailRequest := mkVerifyEmailRequest {
  ve_email : str;
  ve_code : str
}.

Record VerifyEmailResponse := mkVerifyEmailResponse {
  ve_ok : bool
}.

Record PasswordResetRequest := mkPasswordResetRequest {
  pr_email : str
}.

Record PasswordResetConfirm := mkPasswordResetConfirm {
  pc_email : str;
  pc_code : str;
  pc_new_password : str
}.

Record OkResponse := mkOkResponse {
  ok : bool;
  message : option string
}.

(** The error details of the handlers, as the source spells them. *)
Definition InvalidCode : exn := HTTPException 400 "Неверный код".
Definition CodeExpired : exn := HTTPException 400 "Срок действия кода истёк".
Definition AlreadyRegistered : exn := HTTPException 400 "Пользователь уже зарегистрирован".
Definition NotificationFailed : exn := HTTPException 500 "Не удалось отправить письмо с кодом".
Definition InvalidCredentials : exn := HTTPException 401 "Неверный email или пароль".

(** ** The handlers ([backend/main.py]) *)

Section Handlers.

(** [pwd_context.hash] (with the salt it draws made explicit) and
    [pwd_context.verify] of the passlib context. *)
Variable pwd_hash : str → str → str.
Variable pwd_verify : str → str → bool.

Definition verify_email (body : VerifyEmailRequest) : M VerifyEmailResponse :=
  let* user := query_first (ve_email body) in
  match user with
  | None => raise InvalidCode
  | Some (i, u) =>
    if negb (truthy (verification_code u)) then raise InvalidCode else
    let* env := ask in
    let now := utcnow env in
    if expired (verification_expires_at u) now then raise CodeExpired else
    if negb (Py.eqb (verification_code u) (Some (strip (ve_code body))))
    then raise InvalidCode else
    setattr i (set_is_verified true);;
    setattr i (set_verification_code None);;
    setattr i (set_verification_expires_at None);;
    commit;;
    ret (mkVerifyEmailResponse true)
  end.

Definition password_reset_request (body : PasswordResetRequest) : M OkResponse :=
  let* user := query_first (pr_email body) in
  match user with
  | None => ret (mkOkResponse true (Some "Если email существует — код отправлен"%string))
  | Some (i, u) =>
    let* env := ask in
    let code := format_int (randint 100000 999999 (entropy env)) in
    setattr i (set_reset_code (Some code));;
    setattr i (set_reset_expires_at (Some (utcnow env + minutes 10)));;
    commit;;
    send_reset_code_email (email u) code;;
    ret (mkOkResponse true (Some "Код отправлен"%string))
  end.

Definition password_reset_confirm (body : PasswordResetConfirm) : M OkResponse :=
  let* user := query_first (pc_email body) in
  match user with
  | None => raise InvalidCode
  | Some (i, u) =>
    if negb (truthy (reset_code u)) then raise InvalidCode else
    let* env := ask in
    let now := utcnow env in
    if expired (reset_expires_at u) now then raise CodeExpired else
    if negb (Py.eqb (reset_code u) (Some (strip (pc_code body))))
    then raise InvalidCode else
    setattr i (set_password_hash
                 (pwd_hash (salt env) (slice_to 72 (pc_new_password body))));;
    setattr i (set_reset_code None);;
    setattr i (set_reset_expires_at None);;
    commit;;
    ret (mkOkResponse true (Some "Пароль изменён"%string))
  end.

Definition signup (body : SignupRequest) : M SignupResponse :=
  let* existing := query_first (su_email body) in
  let* env := ask in
  let code := format_int (randint 100000 999999 (entropy env)) in
  let expires_at := utcnow env + minutes 10 in
  match existing with
  | Some (i, ex) =>
    if is_verified ex then raise AlreadyRegistered else
    setattr i (set_verification_code (Some code));;
    setattr i (set_verification_expires_at (Some expires_at));;
    commit;;
    try_except_raise (send_verification_email (email ex) code)
      NotificationFailed;;
    ret (mkSignupResponse true (id ex))
  | None =>
    let password_hash := pwd_hash (salt env) (slice_to 72 (su_password body)) in
    let* user :=
      add (mkUser 0 (su_email body) password_hash
             (or_else (su_referralCode body) None) None
             (Some code) (Some expires_at) false None None false) in
    commit;;
    try_except_raise (send_verification_email (email user) code)
      NotificationFailed;;
    ret (mkSignupResponse true (id user))
  end.

Definition login (body : LoginRequest) : M LoginResponse :=
  let* user := query_first (li_email body) in
  match user with
  | None => raise InvalidCredentials
  | Some (_, u) =>
    if negb (pwd_verify (slice_to 72 (li_password body)) (password_hash u))
    then raise InvalidCredentials
    else ret (mkLoginResponse true (id u) (email u))
  end.

End Handlers.

(** ** Serving one request *)

(** What outlives a request: the committed table and the delivered mails. *)
Record World := mkWorld {
  db : DB;
  mailbox : list Email
}.

(** [get_db] opens a session on the committed table, hands it to the
    handler and closes it whatever the outcome; what the session had not
    committed is dropped. *)
Definition serve {A} (h : M A) (env : Env) (w : World) : Result A * World :=
  let '(r, s) := h env (mkHState (db w) (db w) (mailbox w)) in
  (r, mkWorld (store s) (sent s)).

(** Status line the framework answers with: 200 for a returned body, the
    status of an [HTTPException], 500 for any other exception. *)
Definition status_of {A} (r : Result A) : Z :=
  match r with
  | Return _ => 200
  | Raise (HTTPException c _) => c
  | Raise _ => 500
  end.

(** The row [query_first] loads, with its position. *)
Definition lookup_email (e : str) (d : DB) : option (nat * User) :=
  list_find (λ u, email u = e) (rows d).

Definition find_user (e : str) (d : DB) : option User :=
  snd <$> lookup_email e d.

(** The code and the expiry a request generates, and whether a mail it
    sends gets through. *)
Definition fresh_code (env : Env) : str :=
  format_int (randint 100000 999999 (entropy env)).

Definition fresh_expiry (env : Env) : instant := utcnow env + minutes 10.

(** The server takes the message. *)
Definition delivers (env : Env) : bool := smtp_configured env && smtp_up env.

(** The mail function returns instead of raising. *)
Definition send_returns (env : Env) : bool := delivers env && quit_ok env.

(** The delivered mails after an attempt to send [m]. *)
Definition outbox_after (env : Env) (mb : list Email) (m : Email) : list Email :=
  if delivers env then mb ++ [m] else mb.

(** The exception a failing send raises. *)
Definition send_error (env : Env) : exn :=
  if smtp_configured env then SMTPException
  else RuntimeError "SMTP не настроен (нужны SMTP_HOST/SMTP_USER/SMTP_PASSWORD)".

(** The rows the handlers write. *)
Definition verified (u : User) : User :=
  set_verification_expires_at None
    (set_verification_code None (set_is_verified true u)).

Definition with_verification (env : Env) (u : User) : User :=
  set_verification_expires_at (Some (fresh_expiry env))
    (set_verification_code (Some (fresh_code env)) u).

Definition with_reset (env : Env) (u : User) : User :=
  set_reset_expires_at (Some (fresh_expiry env))
    (set_reset_code (Some (fresh_code env)) u).

Definition with_password (h : str) (u : User) : User :=
  set_reset_expires_at None (set_reset_code None (set_password_hash h u)).

Definition new_user (h : str) (body : SignupRequest) (env : Env) (d : DB) : User :=
  mkUser (next_id d) (su_email body) h (or_else (su_referralCode body) None)
    (Some (db_now env)) (Some (fresh_code env)) (Some (fresh_expiry env))
    false None None false.

(** The table with row [i] replaced. *)
Definition update_row (i : nat) (u : User) (d : DB) : DB :=
  mkDB (<[i := u]> (rows d)) (next_id d).

(** The table with one more row. *)
Definition insert_row (u : User) (d : DB) : DB :=
  mkDB (rows d ++ [u]) (next_id d + 1).

(** ** A transparent hasher

    Hashes are salt length, salt and secret in clear.  It verifies exactly
    the secret that was hashed, and lets the handlers be evaluated on
    concrete inputs. *)

Definition plain_hash (salt secret : str) : str :=
  N.of_nat (length salt) :: salt ++ secret.

Definition plain_verify (secret hash : str) : bool :=
  match hash with
  | n :: rest => bool_decide (drop (N.to_nat n) rest = secret)
  | [] => false
  end.

(** ** Sample data *)

Module Sample.

Definition env0 : Env :=
  mkEnv 1000000000 23456 (lit "NaCl") (Some (lit "smtp.gmail.com"))
    (Some (lit "bot@x.com")) (Some (lit "secret")) true true 1000000007.

(** Same instant and entropy, but the transport is down. *)
Definition env_down : Env :=
  mkEnv 1000000000 23456 (lit "NaCl") (Some (lit "smtp.gmail.com"))
    (Some (lit "bot@x.com")) (Some (lit "secret")) false true 1000000007.

(** Eleven minutes after [env0]. *)
Definition env_late : Env :=
  mkEnv (1000000000 + minutes 11) 777 (lit "KCl") (Some (lit "smtp.gmail.com"))
    (Some (lit "bot@x.com")) (Some (lit "secret")) true true 1000000007.

Definition empty : World := mkWorld (mkDB [] 1) [].

Definition alice : str := lit "a@x.com".

Definition bob : str := lit "b@x.com".

(** Same instant as [env0], another draw of the random source. *)
Definition env1 : Env :=
  mkEnv 1000000000 554321 (lit "KBr") (Some (lit "smtp.gmail.com"))
    (Some (lit "bot@x.com")) (Some (lit "secret")) true true 1000000007.

(** [SMTP_USER] is not set. *)
Definition env_unset : Env :=
  mkEnv 1000000000 23456 (lit "NaCl") (Some (lit "smtp.gmail.com"))
    None (Some (lit "secret")) true true 1000000007.

(** Three minutes after [env0], another draw, and the transport is
    down. *)
Definition env_down_later : Env :=
  mkEnv (1000000000 + minutes 3) 554321 (lit "KBr")
    (Some (lit "smtp.gmail.com")) (Some (lit "bot@x.com"))
    (Some (lit "secret")) false true 1000000007.

(** As [env0], but the server does not answer the closing [QUIT] with
    221. *)
Definition env_quit : Env :=
  mkEnv 1000000000 23456 (lit "NaCl") (Some (lit "smtp.gmail.com"))
    (Some (lit "bot@x.com")) (Some (lit "secret")) true false 1000000007.

(** Alice has signed up with password [pw1]: code 123456 is pending. *)
Definition signed_up : World :=
  snd (serve (signup plain_hash (mkSignupRequest alice (lit "pw1") None)) env0 empty).

(** ... and has asked for a password reset: code 654321 is pending. *)
Definition reset_requested : World :=
  snd (serve (password_reset_request (mkPasswordResetRequest alice)) env1 signed_up).

(** ... and has verified her address. *)
Definition alice_verified : World :=
  snd (serve (verify_email (mkVerifyEmailRequest alice (lit "123456"))) env1
         reset_requested).

(** A row whose pending codes carry no expiry, as a row written outside
    the handlers may. *)
Definition carol : User :=
  mkUser 7 (lit "c@x.com") (plain_hash (lit "s") (lit "pw")) None None
    (Some (lit "111111")) None false (Some (lit "222222")) None false.

Definition no_expiry : World := mkWorld (mkDB [carol] 8) [].

(** Alice's row while both of her codes are pending. *)
Definition alice_pending : User :=
  Eval vm_compute in default carol (find_user alice (db reset_requested)).

(** Two passwords of 73 characters that differ in the last one only. *)
Definition long_old : str := replicate 72 97%N ++ lit "1".
Definition long_new : str := replicate 72 97%N ++ lit "2".

(** Alice signs up with [long_old], asks for a reset and confirms it with
    [long_new]. *)
Definition long_signed_up : World :=
  snd (serve (signup plain_hash (mkSignupRequest alice long_old None)) env0 empty).

Definition long_requested : World :=
  snd (serve (password_reset_request (mkPasswordResetRequest alice)) env1
         long_signed_up).

Definition long_confirmed : World :=
  snd (serve (password_reset_confirm plain_hash
                (mkPasswordResetConfirm alice (lit "654321") long_new))
         env1 long_requested).

End Sample.

(** ** The routes

    The five account routes the application registers, answered one
    request at a time. *)

Inductive Request :=
  | PostSignup (body : SignupRequest)
  | PostVerifyEmail (body : VerifyEmailRequest)
  | PostLogin (body : LoginRequest)
  | PostPasswordResetRequest (body : PasswordResetRequest)
  | PostPasswordResetConfirm (body : PasswordResetConfirm).

Section Routes.

Variable pwd_hash : str → str → str.
Variable pwd_verify : str → str → bool.

(** What the client sees of a served request here: the status line. *)
Definition answer {A} (x : Result A * World) : Z * World :=
  (status_of (fst x), snd x).

Definition handle (req : Request) (env : Env) (w : World) : Z * World :=
  match req with
  | PostSignup body => answer (serve (signup pwd_hash body) env w)
  | PostVerifyEmail body => answer (serve (verify_email body) env w)
  | PostLogin body => answer (serve (login pwd_verify body) env w)
  | PostPasswordResetRequest body =>
      answer (serve (password_reset_request body) env w)
  | PostPasswordResetConfirm body =>
      answer (serve (password_reset_confirm pwd_hash body) env w)
  end.

(** A sequence of requests, each with the environment it is served in. *)
Fixpoint run (reqs : list (Request * Env)) (w : World) : World :=
  match reqs with
  | [] => w
  | (req, env) :: rest => run rest (snd (handle req env w))
  end.

(** A route as the framework serves it: the body of the request is first
    validated against the pydantic model of the route ([parse], which also
    normalises, as [EmailStr] does the address); a body that fails is
    answered with 422 and the function is not called. *)
Definition route {Raw : Type} (parse : Raw → option Request) (raw : Raw)
    (env : Env) (w : World) : Z * World :=
  match parse raw with
  | Some req => handle req env w
  | None => (422, w)
  end.

End Routes.

(** ** Well-formed codes and rows *)

Definition is_digit (c : N) : bool := ((48 <=? c) && (c <=? 57))%N.

(** Six ASCII digits, the first not [0]. *)
Definition six_digits (c : str) : bool :=
  bool_decide (length c = 6%nat) && forallb is_digit c
  && negb (bool_decide (head c = Some 48%N)).

(** A code and its expiry come and go together, a pending code is six
    digits, and a verified account has no verification pending. *)
Record row_ok (u : User) : Prop := mk_row_ok {
  verified_no_code : is_verified u = true → verification_code u = None;
  verification_paired :
    verification_code u = None ↔ verification_expires_at u = None;
  reset_paired : reset_code u = None ↔ reset_expires_at u = None;
  verification_digits :
    ∀ c, verification_code u = Some c → six_digits c = true;
  reset_digits : ∀ c, reset_code u = Some c → six_digits c = true
}.

(** The table keeps the uniqueness of [email] and has well-formed rows. *)
Definition table_ok (d : DB) : Prop :=
  NoDup (email <$> rows d) ∧ Forall row_ok (rows d).

(** Columns no route writes once the row exists. *)
Definition same_identity (u u' : User) : Prop :=
  id u' = id u ∧ email u' = email u ∧ referral_code u' = referral_code u ∧
  created_at u' = created_at u ∧ is_admin u' = is_admin u.

(** ** Decimal digits and white space *)

(** The six decimal digits of a number below a million, most significant
    first. *)
Definition decimal6 (n : Z) : list Z :=
  [n / 100000; n / 10000 mod 10; n / 1000 mod 10; n / 100 mod 10;
   n / 10 mod 10; n mod 10].

(** The ASCII character of a decimal digit. *)
Definition digit_char (k : Z) : N := Z.to_N (48 + k).

(** One more digit in front of a [Decimal.uint]. *)
Definition dig (k : Z) (l : Decimal.uint) : Decimal.uint :=
  match k with
  | 0 => D0 l | 1 => D1 l | 2 => D2 l | 3 => D3 l | 4 => D4 l
  | 5 => D5 l | 6 => D6 l | 7 => D7 l | 8 => D8 l | _ => D9 l
  end.

(** Nothing but white space. *)
Definition blank (s : str) : Prop := Forall (λ c, isspace c = true) s.

(** No white space at either end. *)
Definition trimmed (s : str) : Prop :=
  (∀ c, head s = Some c → isspace c = false) ∧
  (∀ c, list.last s = Some c → isspace c = false).

(** ** The market-data proxy ([backend/main.py])

    [_tf_to_finnhub_res], [api_stocks_quotes] and [api_stocks_candles].
    The upstream service, the decoding of its answers and the conversions
    to [float] are taken as they come: a decoded answer is a JSON value,
    and an exception that nothing catches ends the request. *)

Module Stocks.

Definition is_ascii (c : N) : bool := (c <? 128)%N.

Definition ascii_lower (c : N) : N :=
  if ((65 <=? c) && (c <=? 90))%N then (c + 32)%N else c.

Definition ascii_upper (c : N) : N :=
  if ((97 <=? c) && (c <=? 122))%N then (c - 32)%N else c.

(** [s.split(sep)] for a one-character separator. *)
Fixpoint split (sep : N) (s : str) : list str :=
  match s with
  | [] => [[]]
  | c :: s' =>
    if (c =? sep)%N then [] :: split sep s'
    else match split sep s' with
         | p :: ps => (c :: p) :: ps
         | [] => [[c]]
         end
  end.

(** A decoded JSON value; [num] is what the decoder makes of a number. *)
#[warnings="-register-all"] Inductive json (num : Type) :=
  | JNull
  | JBool (b : bool)
  | JNum (x : num)
  | JStr (s : str)
  | JArr (l : list (json num))
  | JObj (kv : list (str * json num)).
Arguments JNull {num}.
Arguments JBool {num} b.
Arguments JNum {num} x.
Arguments JStr {num} s.
Arguments JArr {num} l.
Arguments JObj {num} kv.

(** First binding of a key in an association list, as a [dict] keeps one
    value per key. *)
Fixpoint assoc {V} (k : str) (kv : list (str * V)) : option V :=
  match kv with
  | [] => None
  | (k', v) :: kv' => if decide (k' = k) then Some v else assoc k kv'
  end.

(** [d[k] = v] on an insertion-ordered [dict]. *)
Fixpoint dict_set {V} (k : str) (v : V) (kv : list (str * V)) : list (str * V) :=
  match kv with
  | [] => [(k, v)]
  | (k', v') :: kv' =>
    if decide (k' = k) then (k, v) :: kv' else (k', v') :: dict_set k v kv'
  end.

(** One candle of the answer of [api_stocks_candles]. *)
Record Candle (float : Type) := mkCandle {
  candle_t : Z;
  candle_o : float;
  candle_h : float;
  candle_l : float;
  candle_c : float
}.
Arguments mkCandle {float}.
Arguments candle_t {float}.

(** The query parameters of one upstream call. *)
Record QuoteQuery := mkQuoteQuery {
  qq_symbol : str;
  qq_token : str
}.

Record CandleQuery := mkCandleQuery {
  cq_symbol : str;
  cq_resolution : str;
  cq_from : Z;
  cq_to : Z;
  cq_token : str
}.

Section Proxy.

(** [str.lower] and [str.upper] on a string that has a character outside
    ASCII (the Unicode case tables). *)
Variable unicode_lower : str → str.
Variable unicode_upper : str → str.

Definition lower (s : str) : str :=
  if forallb is_ascii s then ascii_lower <$> s else unicode_lower s.

Definition upper (s : str) : str :=
  if forallb is_ascii s then ascii_upper <$> s else unicode_upper s.

Definition resolutions : list (str * str) :=
  [(lit "1m", lit "1"); (lit "5m", lit "5"); (lit "15m", lit "15");
   (lit "30m", lit "30"); (lit "1h", lit "60"); (lit "1d", lit "D");
   (lit "1w", lit "W"); (lit "1mo", lit "M")].

Definition _tf_to_finnhub_res (tf : option str) : str :=
  let tf := lower (if truthy tf then default [] tf else lit "1m") in
  default (lit "1") (assoc tf resolutions).

(** The numbers of the decoder, Python's [float], the truth value of a
    number, and [int(x)] and [float(x)] where they do not raise. *)
Variable num : Type.
Variable float : Type.
Variable num_truthy : num → bool.
Variable py_int : json num → option Z.
Variable py_float : json num → option float.

(** The key of the process environment, and the upstream service:
    [requests.get(...).json()], [None] when either raises.  A request for
    quotes calls it several times; the answer may depend on how many calls
    came before. *)
Variable FINNHUB_KEY : str.
Variable get_quote : nat → QuoteQuery → option (json num).
Variable get_candle : CandleQuery → option (json num).

(** Truth value of a decoded value. *)
Definition py_truthy (v : json num) : bool :=
  match v with
  | JNull => false
  | JBool b => b
  | JNum x => num_truthy x
  | JStr s => negb (bool_decide (s = []))
  | JArr l => negb (bool_decide (l = []))
  | JObj kv => negb (bool_decide (kv = []))
  end.

(** [k in v] for a string [k] of one character; [None] when it raises. *)
Definition py_contains (k : N) (v : json num) : option bool :=
  match v with
  | JObj kv => Some (bool_decide (is_Some (assoc [k] kv)))
  | JArr l => Some (existsb (λ x, match x with
                                  | JStr s => bool_decide (s = [k])
                                  | _ => false
                                  end) l)
  | JStr s => Some (bool_decide (k ∈ s))
  | _ => None
  end.

(** [v[k]] for a string [k]; [None] when it raises. *)
Definition py_getitem (k : str) (v : json num) : option (json num) :=
  match v with
  | JObj kv => assoc k kv
  | _ => None
  end.

(** [len(v)]; [None] when it raises. *)
Definition py_len (v : json num) : option nat :=
  match v with
  | JArr l => Some (length l)
  | JStr s => Some (length s)
  | JObj kv => Some (length kv)
  | _ => None
  end.

(** [v[i]] for an index below [len(v)]; [None] when it raises. *)
Definition py_index (v : json num) (i : nat) : option (json num) :=
  match v with
  | JArr l => l !! i
  | JStr s => (λ c, JStr [c]) <$> s !! i
  | _ => None
  end.

(** [x or []] on the result of a [get]. *)
Definition or_empty (x : option (json num)) : json num :=
  match x with
  | Some v => if py_truthy v then v else JArr []
  | None => JArr []
  end.

(** [[s.strip().upper() for s in symbols.split(",") if s.strip()]] *)
Definition parse_symbols (symbols : str) : list str :=
  (λ s, upper (strip s))
    <$> filter (λ s, strip s ≠ []) (split 44%N symbols).

(** The loop of [api_stocks_quotes] over the symbols still to ask about:
    the answer so far and the calls made so far go in, and come out with
    [None] for the answer when an exception ended the request. *)
Fixpoint quotes_loop (syms : list str) (out : list (str * float))
    (calls : list QuoteQuery) : option (list (str * float)) * list QuoteQuery :=
  match syms with
  | [] => (Some out, calls)
  | sym :: rest =>
    let q := mkQuoteQuery sym FINNHUB_KEY in
    let calls' := calls ++ [q] in
    match get_quote (length calls) q with
    | None => (None, calls')
    | Some j =>
      match py_contains 99%N j with
      | None => (None, calls')
      | Some false => quotes_loop rest out calls'
      | Some true =>
        match py_getitem [99%N] j with
        | None => (None, calls')
        | Some JNull => quotes_loop rest out calls'
        | Some v =>
          match py_float v with
          | None => (None, calls')
          | Some price => quotes_loop rest (dict_set sym price out) calls'
          end
        end
      end
    end
  end.

Definition api_stocks_quotes (symbols : str)
    : option (list (str * float)) * list QuoteQuery :=
  if bool_decide (FINNHUB_KEY = []) then (Some [], [])
  else quotes_loop (parse_symbols symbols) [] [].

(** Candle [i] of the answer; [None] when a lookup or a conversion
    raises. *)
Definition candle_at (t o h l c : json num) (i : nat) : option (Candle float) :=
  ti ← py_index t i; tz ← py_int ti;
  oi ← py_index o i; fo ← py_float oi;
  hi ← py_index h i; fh ← py_float hi;
  li ← py_index l i; fl ← py_float li;
  ci ← py_index c i; fc ← py_float ci;
  Some (mkCandle (tz * 1000) fo fh fl fc).

(** [x != "ok"] on the result of a [get]. *)
Definition not_ok (x : option (json num)) : bool :=
  match x with
  | Some (JStr s) => negb (bool_decide (s = lit "ok"))
  | _ => true
  end.

(** [api_stocks_candles(symbol, tf)] at the second [now] of [time.time()]. *)
Definition api_stocks_candles (now : Z) (symbol : str) (tf : option str)
    : option (list (Candle float)) * list CandleQuery :=
  if bool_decide (FINNHUB_KEY = []) then (Some [], [])
  else
    let sym := upper (strip symbol) in
    let resolution := _tf_to_finnhub_res tf in
    let to_ts := now in
    let from_ts := to_ts - 3 * 24 * 60 * 60 in
    let q := mkCandleQuery sym resolution from_ts to_ts FINNHUB_KEY in
    match get_candle q with
    | Some (JObj kv) =>
      if not_ok (assoc [115%N] kv) then (Some [], [q])
      else
        let t := or_empty (assoc [116%N] kv) in
        let o := or_empty (assoc [111%N] kv) in
        let h := or_empty (assoc [104%N] kv) in
        let l := or_empty (assoc [108%N] kv) in
        let c := or_empty (assoc [99%N] kv) in
        match py_len t, py_len o, py_len h, py_len l, py_len c with
        | Some nt, Some no, Some nh, Some nl, Some nc =>
          let n := Nat.min nt (Nat.min no (Nat.min nh (Nat.min nl nc))) in
          (mapM (candle_at t o h l c) (seq 0 n), [q])
        | _, _, _, _, _ => (None, [q])
        end
    | _ => (None, [q])
    end.

(** The upstream call for symbol [k]. *)
Definition quote_query (k : str) : QuoteQuery := mkQuoteQuery k FINNHUB_KEY.

(** Among [calls] there is one for [k] that the upstream answered with an
    object whose ["c"] converts to the price [v]. *)
Definition quoted (calls : list QuoteQuery) (k : str) (v : float) : Prop :=
  ∃ n obj x,
    calls !! n = Some (quote_query k) ∧
    get_quote n (quote_query k) = Some (JObj obj) ∧
    assoc [99%N] obj = Some x ∧ py_float x = Some v.

End Proxy.

End Stocks.

(** Sample instance of the proxy: every number is an integer, [int] and
    [float] convert numbers only, and strings outside ASCII keep their
    case. *)
Module StocksSample.

Import Stocks.

Definition int_of (v : json Z) : option Z :=
  match v with
  | JNum z => Some z
  | _ => None
  end.

Definition nonzero (z : Z) : bool := negb (z =? 0).

Definition key : str := lit "k3y".

(** The upstream knows AAPL at 190 and answers an empty object
    otherwise. *)
Definition quotes_upstream (n : nat) (q : QuoteQuery) : option (json Z) :=
  if bool_decide (qq_symbol q = lit "AAPL")
  then Some (JObj [(lit "c", JNum 190); (lit "h", JNum 191)])
  else Some (JObj []).

(** Three time stamps but only two opening prices. *)
Definition candles_upstream (q : CandleQuery) : option (json Z) :=
  Some (JObj [(lit "s", JStr (lit "ok"));
              (lit "t", JArr [JNum 10; JNum 70; JNum 130]);
              (lit "o", JArr [JNum 1; JNum 2]);
              (lit "h", JArr [JNum 3; JNum 4; JNum 5]);
              (lit "l", JArr [JNum 0; JNum 1; JNum 2]);
              (lit "c", JArr [JNum 2; JNum 3; JNum 4])]).

Definition quotes (symbols : str) :=
  api_stocks_quotes (λ s, s) Z Z int_of key quotes_upstream symbols.

Definition candles (now : Z) (symbol : str) (tf : option str) :=
  api_stocks_candles (λ s, s) (λ s, s) Z Z nonzero int_of int_of key
    candles_upstream
    now symbol tf.

End StocksSample.

(** * Properties *)

Example strip_code : strip (lit " 123456
") = lit "123456".
Proof. reflexivity. Qed.

Example format_code : format_int 100000 = lit "100000" ∧ format_int 0 = lit "0".
Proof. split; reflexivity. Qed.

(** ** First match and update of a list *)

Section ListFacts.
Context {A : Type} (P : A → Prop) `{!∀ x, Decision (P x)}.

Lemma list_find_lookup (l : list A) i x :
  list_find P l = Some (i, x) → l !! i = Some x.
Proof. intros Hf. by apply list_find_Some in Hf as (? & _). Qed.

Lemma alter_found (f : A → A) (l : list A) i x :
  l !! i = Some x → alter f i l = <[i := f x]> l.
Proof.
  intros Hl. apply list_eq. intros j.
  destruct (decide (i = j)) as [->|Hne].
  - rewrite list_lookup_alter_eq, Hl. simpl.
    symmetry. apply list_lookup_insert_eq. by eapply lookup_lt_Some.
  - by rewrite list_lookup_alter_ne, list_lookup_insert_ne.
Qed.

Lemma list_find_update (l : list A) i x y :
  list_find P l = Some (i, x) → P y →
  list_find P (<[i := y]> l) = Some (i, y).
Proof.
  intros Hf Hy. apply list_find_Some in Hf as (Hl & Hx & Hmin).
  apply list_find_Some. split_and!.
  - apply list_lookup_insert_eq. by eapply lookup_lt_Some.
  - done.
  - intros j z Hj Hlt. rewrite list_lookup_insert_ne in Hj by lia. eauto.
Qed.

Lemma list_find_snoc (l : list A) y :
  list_find P l = None → P y →
  list_find P (l ++ [y]) = Some (length l, y).
Proof.
  intros Hn Hy. rewrite list_find_app_r by done. simpl.
  by rewrite decide_True.
Qed.

End ListFacts.

(** ** The handlers as transitions of the committed world *)

Lemma commit_no_insert env st sess mb :
  length (rows sess) = length (rows st) →
  commit env (mkHState st sess mb) = (Return tt, mkHState sess sess mb).
Proof.
  intros Hlen. unfold commit. cbn [store session sent].
  by rewrite drop_ge by lia.
Qed.

Lemma commit_insert env st u n mb :
  commit env (mkHState st (mkDB (rows st ++ [u]) n) mb)
  = if fits_columns u
    then (Return tt,
          mkHState (mkDB (rows st ++ [u]) n) (mkDB (rows st ++ [u]) n) mb)
    else (Raise DataError, mkHState st st mb).
Proof.
  unfold commit. cbn [store session sent rows].
  rewrite drop_app_length. cbn [forallb]. by rewrite andb_true_r.
Qed.

Ltac step_handler :=
  unfold serve, bind, ask, raise, ret, setattr, add,
    try_except_raise, send_verification_email, send_reset_code_email,
    send_mail, query_first, lookup_email; cbn.

Lemma verify_email_eq body env w :
  serve (verify_email body) env w =
  match lookup_email (ve_email body) (db w) with
  | None => (Raise InvalidCode, w)
  | Some (i, u) =>
    if negb (truthy (verification_code u)) then (Raise InvalidCode, w)
    else if expired (verification_expires_at u) (utcnow env)
    then (Raise CodeExpired, w)
    else if negb (Py.eqb (verification_code u) (Some (strip (ve_code body))))
    then (Raise InvalidCode, w)
    else (Return (mkVerifyEmailResponse true),
          mkWorld (update_row i (verified u) (db w)) (mailbox w))
  end.
Proof.
  destruct w as [[rs n] mb]. unfold verify_email. step_handler.
  destruct (list_find _ rs) as [[i u]|] eqn:Hf; [|done].
  destruct (truthy (verification_code u)); cbn; [|done].
  destruct (expired _ _); cbn; [done|].
  destruct (Py.eqb _ _); cbn; [|done].
  step_handler. rewrite commit_no_insert by (cbn [rows]; by rewrite !length_alter).
  rewrite !list_alter_alter_eq.
  by erewrite alter_found by (by eapply list_find_lookup).
Qed.

Lemma password_reset_confirm_eq pwd_hash body env w :
  serve (password_reset_confirm pwd_hash body) env w =
  match lookup_email (pc_email body) (db w) with
  | None => (Raise InvalidCode, w)
  | Some (i, u) =>
    if negb (truthy (reset_code u)) then (Raise InvalidCode, w)
    else if expired (reset_expires_at u) (utcnow env)
    then (Raise CodeExpired, w)
    else if negb (Py.eqb (reset_code u) (Some (strip (pc_code body))))
    then (Raise InvalidCode, w)
    else (Return (mkOkResponse true (Some "Пароль изменён"%string)),
          mkWorld
            (update_row i
               (with_password
                  (pwd_hash (salt env) (slice_to 72 (pc_new_password body))) u)
               (db w))
            (mailbox w))
  end.
Proof.
  destruct w as [[rs n] mb]. unfold password_reset_confirm. step_handler.
  destruct (list_find _ rs) as [[i u]|] eqn:Hf; [|done].
  destruct (truthy (reset_code u)); cbn; [|done].
  destruct (expired _ _); cbn; [done|].
  destruct (Py.eqb _ _); cbn; [|done].
  step_handler. rewrite commit_no_insert by (cbn [rows]; by rewrite !length_alter).
  rewrite !list_alter_alter_eq.
  by erewrite alter_found by (by eapply list_find_lookup).
Qed.

Lemma password_reset_request_eq body env w :
  serve (password_reset_request body) env w =
  match lookup_email (pr_email body) (db w) with
  | None =>
    (Return (mkOkResponse true (Some "Если email существует — код отправлен"%string)), w)
  | Some (i, u) =>
    (if send_returns env
     then Return (mkOkResponse true (Some "Код отправлен"%string))
     else Raise (send_error env),
     mkWorld (update_row i (with_reset env u) (db w))
       (outbox_after env (mailbox w)
          (mkEmail Reset (email u) (fresh_code env))))
  end.
Proof.
  destruct w as [[rs n] mb]. unfold password_reset_request. step_handler.
  destruct (list_find _ rs) as [[i u]|] eqn:Hf; [|done].
  step_handler. rewrite commit_no_insert by (cbn [rows]; by rewrite !length_alter).
  rewrite !list_alter_alter_eq.
  erewrite alter_found by (by eapply list_find_lookup).
  unfold send_returns, outbox_after, delivers, send_error.
  destruct (smtp_configured env), (smtp_up env), (quit_ok env); done.
Qed.

Lemma signup_eq pwd_hash body env w :
  serve (signup pwd_hash body) env w =
  match lookup_email (su_email body) (db w) with
  | Some (i, ex) =>
    if is_verified ex then (Raise AlreadyRegistered, w)
    else
      (if send_returns env
       then Return (mkSignupResponse true (id ex))
       else Raise NotificationFailed,
       mkWorld (update_row i (with_verification env ex) (db w))
         (outbox_after env (mailbox w)
            (mkEmail Verification (email ex) (fresh_code env))))
  | None =>
    let u := new_user (pwd_hash (salt env) (slice_to 72 (su_password body)))
               body env (db w) in
    if fits_columns u
    then (if send_returns env
          then Return (mkSignupResponse true (id u))
          else Raise NotificationFailed,
          mkWorld (insert_row u (db w))
            (outbox_after env (mailbox w)
               (mkEmail Verification (email u) (fresh_code env))))
    else (Raise DataError, w)
  end.
Proof.
  destruct w as [[rs n] mb]. unfold signup. step_handler.
  destruct (list_find _ rs) as [[i u]|] eqn:Hf.
  - destruct (is_verified u); [done|]. step_handler.
    rewrite commit_no_insert by (cbn [rows]; by rewrite !length_alter).
    rewrite !list_alter_alter_eq.
    erewrite alter_found by (by eapply list_find_lookup).
    unfold send_returns, outbox_after, delivers.
    destruct (smtp_configured env), (smtp_up env), (quit_ok env); done.
  - step_handler.
    rewrite (commit_insert env (mkDB rs n) _ (n + 1) mb).
    unfold new_user, fresh_expiry, fresh_code. cbn [next_id su_email].
    destruct (fits_columns _); [|done]. cbn.
    unfold send_returns, outbox_after, delivers.
    destruct (smtp_configured env), (smtp_up env), (quit_ok env); done.
Qed.

Lemma login_eq pwd_verify body env w :
  serve (login pwd_verify body) env w =
  match lookup_email (li_email body) (db w) with
  | None => (Raise InvalidCredentials, w)
  | Some (_, u) =>
    if pwd_verify (slice_to 72 (li_password body)) (password_hash u)
    then (Return (mkLoginResponse true (id u) (email u)), w)
    else (Raise InvalidCredentials, w)
  end.
Proof.
  destruct w as [[rs n] mb]. unfold login. step_handler.
  destruct (list_find _ rs) as [[i u]|]; [|done].
  by destruct (pwd_verify _ _).
Qed.

(** ** Looking a row up after a write *)

Lemma lookup_email_email e d i u :
  lookup_email e d = Some (i, u) → email u = e.
Proof. intros Hf. by apply list_find_Some in Hf as (_ & ? & _). Qed.

Lemma lookup_email_row e d i u :
  lookup_email e d = Some (i, u) → rows d !! i = Some u.
Proof. apply list_find_lookup. Qed.

Lemma lookup_email_update e d i u u' :
  lookup_email e d = Some (i, u) → email u' = email u →
  lookup_email e (update_row i u' d) = Some (i, u').
Proof.
  intros Hf He. unfold lookup_email, update_row. cbn.
  eapply list_find_update; [exact Hf|].
  rewrite He. by eapply lookup_email_email.
Qed.

Lemma lookup_email_insert e d u :
  lookup_email e d = None → email u = e →
  lookup_email e (insert_row u d) = Some (length (rows d), u).
Proof. intros Hf He. by apply list_find_snoc. Qed.

Lemma error_kinds_distinct :
  CodeExpired ≠ InvalidCode ∧ InvalidCode ≠ InvalidCredentials ∧
  AlreadyRegistered ≠ InvalidCode ∧ NotificationFailed ≠ InvalidCode.
Proof. by split_and!. Qed.

(** ** Expiry before equality *)

(** C1. For an account with a pending code whose stored expiry is in the
    past, [verify_email] and [password_reset_confirm] raise [CodeExpired]
    whatever code is submitted, the stored one included, and leave the
    world as it was; [CodeExpired] is not [InvalidCode]. *)
Theorem expired_code_reports_expiry pwd_hash env w i u t :
  (∀ body,
     lookup_email (ve_email body) (db w) = Some (i, u) →
     truthy (verification_code u) = true →
     verification_expires_at u = Some t → t < utcnow env →
     serve (verify_email body) env w = (Raise CodeExpired, w)) ∧
  (∀ body,
     lookup_email (pc_email body) (db w) = Some (i, u) →
     truthy (reset_code u) = true →
     reset_expires_at u = Some t → t < utcnow env →
     serve (password_reset_confirm pwd_hash body) env w
     = (Raise CodeExpired, w)) ∧
  CodeExpired ≠ InvalidCode.
Proof.
  split_and!; [| |done].
  - intros body Hf Hp Ht Hlt. rewrite verify_email_eq, Hf, Hp, Ht. cbn.
    by rewrite bool_decide_true.
  - intros body Hf Hp Ht Hlt. rewrite password_reset_confirm_eq, Hf, Hp, Ht.
    cbn. by rewrite bool_decide_true.
Qed.

(** C1 at sample data: eleven minutes after the codes were issued the
    right codes are answered with [CodeExpired]. *)
Lemma expired_code_reports_expiry_witness :
  serve (verify_email (mkVerifyEmailRequest Sample.alice (lit "123456")))
    Sample.env_late Sample.reset_requested
  = (Raise CodeExpired, Sample.reset_requested) ∧
  serve (password_reset_confirm plain_hash
           (mkPasswordResetConfirm Sample.alice (lit "654321") (lit "pw2")))
    Sample.env_late Sample.reset_requested
  = (Raise CodeExpired, Sample.reset_requested).
Proof.
  split.
  - apply (proj1 (expired_code_reports_expiry plain_hash Sample.env_late
                     Sample.reset_requested 0%nat Sample.alice_pending
                     1600000000));
      reflexivity.
  - apply (proj1 (proj2 (expired_code_reports_expiry plain_hash Sample.env_late
                     Sample.reset_requested 0%nat Sample.alice_pending
                     1600000000)));
      reflexivity.
Defined.

(** ** Verification consumes the code *)

(** C3. After a successful [verify_email] the account is verified and its
    verification code and expiry are cleared, so a second [verify_email]
    for that address, with the same code or any other and at any time,
    raises [InvalidCode], which is not [CodeExpired]. *)
Theorem verify_email_consumes_code env w body r w' :
  serve (verify_email body) env w = (Return r, w') →
  (∃ i u, lookup_email (ve_email body) (db w') = Some (i, u) ∧
          is_verified u = true ∧ verification_code u = None ∧
          verification_expires_at u = None) ∧
  (∀ env' body', ve_email body' = ve_email body →
     serve (verify_email body') env' w' = (Raise InvalidCode, w')) ∧
  InvalidCode ≠ CodeExpired.
Proof.
  rewrite verify_email_eq.
  destruct (lookup_email _ (db w)) as [[i u]|] eqn:Hf; [|done].
  repeat case_match; try done. intros [= <- <-].
  assert (Hf' : lookup_email (ve_email body)
                  (update_row i (verified u) (db w)) = Some (i, verified u))
    by (by eapply lookup_email_update).
  split_and!; [by exists i, (verified u) | | done].
  intros env' body' He. rewrite verify_email_eq. cbn [db mailbox].
  by rewrite He, Hf'.
Qed.

(** C3 at sample data: Alice verifies with 123456, then tries again. *)
Lemma verify_email_consumes_code_witness :
  serve (verify_email (mkVerifyEmailRequest Sample.alice (lit "123456")))
    Sample.env_late Sample.alice_verified
  = (Raise InvalidCode, Sample.alice_verified).
Proof.
  destruct (verify_email_consumes_code Sample.env1 Sample.reset_requested
              (mkVerifyEmailRequest Sample.alice (lit "123456"))
              (mkVerifyEmailResponse true) Sample.alice_verified)
    as (_ & Hagain & _); [reflexivity|].
  by apply Hagain.
Defined.

(** ** Signing up again before verification *)

(** C4. [signup] for an address whose account exists and is not verified
    writes a fresh verification code and expiry into that row and nothing
    else, whatever password and referral code the request carries and
    whether or not the mail gets through: every other column of the row
    (the password hash among them), every other row and the key counter
    are as before. *)
Theorem signup_resend_frame pwd_hash env w body i u :
  lookup_email (su_email body) (db w) = Some (i, u) →
  is_verified u = false →
  let d' := db (snd (serve (signup pwd_hash body) env w)) in
  rows d' =
    <[i := mkUser (id u) (email u) (password_hash u) (referral_code u)
             (created_at u) (Some (fresh_code env)) (Some (fresh_expiry env))
             (is_verified u) (reset_code u) (reset_expires_at u) (is_admin u)]>
      (rows (db w)) ∧
  next_id d' = next_id (db w) ∧
  (∀ u', rows d' !! i = Some u' → password_hash u' = password_hash u) ∧
  (∀ j, j ≠ i → rows d' !! j = rows (db w) !! j).
Proof.
  intros Hf Hu d'. subst d'. rewrite signup_eq, Hf, Hu. cbn zeta.
  assert (Hi : (i < length (rows (db w)))%nat)
    by (eapply lookup_lt_Some, lookup_email_row, Hf).
  cbn.
  all: split_and!;
    [ unfold with_verification, set_verification_expires_at,
        set_verification_code; cbn; by rewrite Hu
    | done | |].
  all: try (intros u'; rewrite list_lookup_insert_eq by done; by intros [= <-]).
  all: intros j Hj; by rewrite list_lookup_insert_ne.
Qed.

(** C4 at sample data: Alice signs up again with another password. *)
Lemma signup_resend_frame_witness :
  find_user Sample.alice
    (db (snd (serve (signup plain_hash
                       (mkSignupRequest Sample.alice (lit "other") None))
                Sample.env1 Sample.signed_up)))
  = Some (set_verification_code (Some (lit "654321"))
            (default Sample.carol (find_user Sample.alice (db Sample.signed_up)))).
Proof.
  pose proof (signup_resend_frame plain_hash Sample.env1 Sample.signed_up
                (mkSignupRequest Sample.alice (lit "other") None) 0%nat
                (default Sample.carol
                   (find_user Sample.alice (db Sample.signed_up)))
                eq_refl eq_refl) as (Hrows & _).
  unfold find_user, lookup_email. rewrite Hrows. reflexivity.
Defined.

(** ** Mail failures do not undo the write *)

(** C2. When sending the mail fails (the mail function raises: SMTP is not
    configured, the exchange breaks down, or the server takes the message
    and the closing of the connection fails), [signup] raises
    [NotificationFailed] (status 500) and [password_reset_request] lets the
    exception of the mail function through (status 500), and in each case
    the committed table already holds the write, spelled out here column by
    column: the regenerated code and the expiry ten minutes from now in the
    row of an unverified account, the new account of a first signup, the
    reset code and its expiry.  A later lookup of the address reads them.
    (A first signup gets as far as the mail only when its insert went
    through, that is when the referral code fits its column.) *)
Theorem mail_failure_after_commit pwd_hash env w :
  send_returns env = false →
  (∀ body i u,
     lookup_email (su_email body) (db w) = Some (i, u) →
     is_verified u = false →
     let u' :=
       mkUser (id u) (email u) (password_hash u) (referral_code u)
         (created_at u) (Some (fresh_code env)) (Some (utcnow env + minutes 10))
         (is_verified u) (reset_code u) (reset_expires_at u) (is_admin u) in
     let d' := mkDB (<[i := u']> (rows (db w))) (next_id (db w)) in
     serve (signup pwd_hash body) env w
     = (Raise NotificationFailed,
        mkWorld d'
          (if delivers env
           then mailbox w
                ++ [mkEmail Verification (su_email body) (fresh_code env)]
           else mailbox w)) ∧
     lookup_email (su_email body) d' = Some (i, u')) ∧
  (∀ body,
     lookup_email (su_email body) (db w) = None →
     (length (default [] (or_else (su_referralCode body) None)) ≤ 50)%nat →
     let u :=
       mkUser (next_id (db w)) (su_email body)
         (pwd_hash (salt env) (slice_to 72 (su_password body)))
         (or_else (su_referralCode body) None) (Some (db_now env))
         (Some (fresh_code env)) (Some (utcnow env + minutes 10))
         false None None false in
     let d' := mkDB (rows (db w) ++ [u]) (next_id (db w) + 1) in
     serve (signup pwd_hash body) env w
     = (Raise NotificationFailed,
        mkWorld d'
          (if delivers env
           then mailbox w
                ++ [mkEmail Verification (su_email body) (fresh_code env)]
           else mailbox w)) ∧
     lookup_email (su_email body) d' = Some (length (rows (db w)), u)) ∧
  (∀ body i u,
     lookup_email (pr_email body) (db w) = Some (i, u) →
     let u' :=
       mkUser (id u) (email u) (password_hash u) (referral_code u)
         (created_at u) (verification_code u) (verification_expires_at u)
         (is_verified u) (Some (fresh_code env))
         (Some (utcnow env + minutes 10)) (is_admin u) in
     let d' := mkDB (<[i := u']> (rows (db w))) (next_id (db w)) in
     serve (password_reset_request body) env w
     = (Raise (send_error env),
        mkWorld d'
          (if delivers env
           then mailbox w ++ [mkEmail Reset (pr_email body) (fresh_code env)]
           else mailbox w)) ∧
     lookup_email (pr_email body) d' = Some (i, u')) ∧
  status_of (A := SignupResponse) (Raise NotificationFailed) = 500 ∧
  status_of (A := OkResponse) (Raise (send_error env)) = 500.
Proof.
  intros Hdown. split_and!.
  - intros body i u Hf Hu u' d'. rewrite signup_eq, Hf, Hu, Hdown.
    rewrite (lookup_email_email _ _ _ _ Hf). split; [done|].
    by apply (lookup_email_update _ _ _ u u').
  - intros body Hf Hfit u d'. rewrite signup_eq, Hf. cbn zeta.
    unfold fits_columns, new_user. cbn [referral_code].
    rewrite bool_decide_true by done. rewrite Hdown.
    split; [done|]. by apply (lookup_email_insert _ _ u).
  - intros body i u Hf u' d'.
    rewrite password_reset_request_eq, Hf, Hdown.
    rewrite (lookup_email_email _ _ _ _ Hf). split; [done|].
    by apply (lookup_email_update _ _ _ u u').
  - done.
  - unfold send_error. by destruct (smtp_configured env).
Qed.

(** C2 at sample data.  Three minutes after her first signup Alice signs
    up again while the transport is down: the request fails, and her row
    now holds the new code 654321 with an expiry thirteen minutes after the
    first signup.  Bob signs up while the server takes the mail but the
    connection does not close properly: the request fails, his account is
    there and his mail is out.  With [SMTP_USER] unset, Alice's reset
    request dies of the [RuntimeError], and her reset code and its expiry
    are stored. *)
Lemma mail_failure_after_commit_witness :
  (∃ w',
     serve (signup plain_hash (mkSignupRequest Sample.alice (lit "pw1") None))
       Sample.env_down_later Sample.signed_up
     = (Raise NotificationFailed, w') ∧
     (λ u, (verification_code u, verification_expires_at u))
       <$> find_user Sample.alice (db Sample.signed_up)
     = Some (Some (lit "123456"), Some (1000000000 + minutes 10)) ∧
     (λ u, (verification_code u, verification_expires_at u))
       <$> find_user Sample.alice (db w')
     = Some (Some (lit "654321"), Some (1000000000 + minutes 13)) ∧
     mailbox w' = mailbox Sample.signed_up) ∧
  (∃ w',
     serve (signup plain_hash (mkSignupRequest Sample.bob (lit "pw") None))
       Sample.env_quit Sample.signed_up
     = (Raise NotificationFailed, w') ∧
     find_user Sample.bob (db Sample.signed_up) = None ∧
     (λ u, (verification_code u, verification_expires_at u))
       <$> find_user Sample.bob (db w')
     = Some (Some (lit "123456"), Some (1000000000 + minutes 10)) ∧
     mailbox w'
     = mailbox Sample.signed_up
       ++ [mkEmail Verification Sample.bob (lit "123456")]) ∧
  (∃ w',
     serve (password_reset_request (mkPasswordResetRequest Sample.alice))
       Sample.env_unset Sample.signed_up
     = (Raise (RuntimeError
                 "SMTP не настроен (нужны SMTP_HOST/SMTP_USER/SMTP_PASSWORD)"),
        w') ∧
     (λ u, (reset_code u, reset_expires_at u))
       <$> find_user Sample.alice (db Sample.signed_up)
     = Some (None, None) ∧
     (λ u, (reset_code u, reset_expires_at u))
       <$> find_user Sample.alice (db w')
     = Some (Some (lit "123456"), Some (1000000000 + minutes 10))).
Proof.
  split_and!.
  - destruct (mail_failure_after_commit plain_hash Sample.env_down_later
                Sample.signed_up eq_refl) as (Hagain & _).
    destruct (Hagain (mkSignupRequest Sample.alice (lit "pw1") None) 0%nat
                (default Sample.carol
                   (find_user Sample.alice (db Sample.signed_up)))
                eq_refl eq_refl) as (Hrun & _).
    eexists. split; [exact Hrun|]. by split_and!.
  - destruct (mail_failure_after_commit plain_hash Sample.env_quit
                Sample.signed_up eq_refl) as (_ & Hnew & _).
    destruct (Hnew (mkSignupRequest Sample.bob (lit "pw") None) eq_refl
                ltac:(cbn; lia)) as (Hrun & _).
    eexists. split; [exact Hrun|]. by split_and!.
  - destruct (mail_failure_after_commit plain_hash Sample.env_unset
                Sample.signed_up eq_refl) as (_ & _ & Hreset & _).
    destruct (Hreset (mkPasswordResetRequest Sample.alice) 0%nat
                (default Sample.carol
                   (find_user Sample.alice (db Sample.signed_up)))
                eq_refl) as (Hrun & _).
    eexists. split; [exact Hrun|]. by split_and!.
Defined.

(** ** Resetting an unknown address *)

(** C6. [password_reset_request] for an address with no account returns a
    success body and changes neither the table nor the delivered mails. *)
Theorem reset_request_unknown_email body env w :
  lookup_email (pr_email body) (db w) = None →
  serve (password_reset_request body) env w
  = (Return (mkOkResponse true
               (Some "Если email существует — код отправлен"%string)), w).
Proof. intros Hf. by rewrite password_reset_request_eq, Hf. Qed.

Lemma reset_request_unknown_email_witness :
  fst (serve (password_reset_request (mkPasswordResetRequest Sample.bob))
         Sample.env0 Sample.signed_up)
  = Return (mkOkResponse true
              (Some "Если email существует — код отправлен"%string)) ∧
  snd (serve (password_reset_request (mkPasswordResetRequest Sample.bob))
         Sample.env0 Sample.signed_up)
  = Sample.signed_up.
Proof.
  rewrite (reset_request_unknown_email
             (mkPasswordResetRequest Sample.bob) Sample.env0 Sample.signed_up
             eq_refl).
  split; reflexivity.
Defined.

(** ** Logging in *)

(** C5. A [login] for an address with no account and a [login] whose
    password does not verify against the stored hash raise the same
    exception, [InvalidCredentials] (same status, same detail), and neither
    changes the table or the delivered mails. *)
Theorem login_failures_identical pwd_verify env1 w1 body1 env2 w2 body2 i u :
  lookup_email (li_email body1) (db w1) = None →
  lookup_email (li_email body2) (db w2) = Some (i, u) →
  pwd_verify (slice_to 72 (li_password body2)) (password_hash u) = false →
  serve (login pwd_verify body1) env1 w1 = (Raise InvalidCredentials, w1) ∧
  serve (login pwd_verify body2) env2 w2 = (Raise InvalidCredentials, w2) ∧
  fst (serve (login pwd_verify body1) env1 w1)
  = fst (serve (login pwd_verify body2) env2 w2).
Proof.
  intros Hnone Hsome Hbad. rewrite !login_eq, Hnone, Hsome, Hbad. done.
Qed.

(** C5 at sample data: Bob has no account, Alice's password is [pw1]. *)
Lemma login_failures_identical_witness :
  fst (serve (login plain_verify (mkLoginRequest Sample.bob (lit "pw1")))
         Sample.env0 Sample.signed_up)
  = fst (serve (login plain_verify (mkLoginRequest Sample.alice (lit "pw2")))
           Sample.env0 Sample.signed_up).
Proof.
  apply (login_failures_identical plain_verify Sample.env0 Sample.signed_up
           (mkLoginRequest Sample.bob (lit "pw1"))
           Sample.env0 Sample.signed_up
           (mkLoginRequest Sample.alice (lit "pw2")) 0%nat
           (default Sample.carol (find_user Sample.alice (db Sample.signed_up)))
           eq_refl eq_refl eq_refl).
Defined.

(** C8. When the password verifies against the stored hash, [login]
    returns the account's id and email and changes nothing, and it does so
    whatever the value of [is_verified]: the same request gets the same
    answer from the table in which that flag of the row is set either
    way. *)
Theorem login_ignores_is_verified pwd_verify env w body i u :
  lookup_email (li_email body) (db w) = Some (i, u) →
  pwd_verify (slice_to 72 (li_password body)) (password_hash u) = true →
  serve (login pwd_verify body) env w
  = (Return (mkLoginResponse true (id u) (email u)), w) ∧
  ∀ b,
    serve (login pwd_verify body) env
      (mkWorld (update_row i (set_is_verified b u) (db w)) (mailbox w))
    = (Return (mkLoginResponse true (id u) (email u)),
       mkWorld (update_row i (set_is_verified b u) (db w)) (mailbox w)).
Proof.
  intros Hf Hok. split.
  - by rewrite login_eq, Hf, Hok.
  - intros b. rewrite login_eq. cbn [db mailbox].
    erewrite lookup_email_update by done. cbn. by rewrite Hok.
Qed.

(** C8 at sample data: Alice logs in before she has verified her address. *)
Lemma login_ignores_is_verified_witness :
  (is_verified <$> find_user Sample.alice (db Sample.signed_up)) = Some false ∧
  fst (serve (login plain_verify (mkLoginRequest Sample.alice (lit "pw1")))
         Sample.env0 Sample.signed_up)
  = Return (mkLoginResponse true 1 Sample.alice).
Proof.
  split; [reflexivity|].
  rewrite (proj1 (login_ignores_is_verified plain_verify Sample.env0
                    Sample.signed_up (mkLoginRequest Sample.alice (lit "pw1"))
                    0%nat
                    (default Sample.carol
                       (find_user Sample.alice (db Sample.signed_up)))
                    eq_refl eq_refl)).
  reflexivity.
Defined.

(** ** Codes without an expiry *)

(** C9. When a code is pending and its expiry column is null, the expiry
    test does not fire: at whatever instant the request arrives, the
    handler does not raise [CodeExpired], and the stored code (up to the
    white space around the submitted one) is accepted. *)
Theorem null_expiry_never_expires pwd_hash env w i u :
  (∀ body,
     lookup_email (ve_email body) (db w) = Some (i, u) →
     truthy (verification_code u) = true →
     verification_expires_at u = None →
     fst (serve (verify_email body) env w) ≠ Raise CodeExpired ∧
     (verification_code u = Some (strip (ve_code body)) →
      serve (verify_email body) env w
      = (Return (mkVerifyEmailResponse true),
         mkWorld (update_row i (verified u) (db w)) (mailbox w)))) ∧
  (∀ body,
     lookup_email (pc_email body) (db w) = Some (i, u) →
     truthy (reset_code u) = true →
     reset_expires_at u = None →
     fst (serve (password_reset_confirm pwd_hash body) env w)
     ≠ Raise CodeExpired ∧
     (reset_code u = Some (strip (pc_code body)) →
      serve (password_reset_confirm pwd_hash body) env w
      = (Return (mkOkResponse true (Some "Пароль изменён"%string)),
         mkWorld
           (update_row i
              (with_password
                 (pwd_hash (salt env) (slice_to 72 (pc_new_password body))) u)
              (db w))
           (mailbox w)))).
Proof.
  split.
  - intros body Hf Hp Hn. rewrite verify_email_eq, Hf, Hp, Hn. cbn.
    split.
    + by destruct (Py.eqb _ _).
    + intros Hc. unfold Py.eqb. by rewrite bool_decide_true.
  - intros body Hf Hp Hn. rewrite password_reset_confirm_eq, Hf, Hp, Hn. cbn.
    split.
    + by destruct (Py.eqb _ _).
    + intros Hc. unfold Py.eqb. by rewrite bool_decide_true.
Qed.

(** C9 at sample data: Carol's codes have no expiry and are accepted a
    thousand years on. *)
Lemma null_expiry_never_expires_witness :
  fst (serve (verify_email (mkVerifyEmailRequest (lit "c@x.com") (lit "111111")))
         (mkEnv (1000000000 + minutes (1000 * 365 * 24 * 60)) 0 [] None None None false true 0)
         Sample.no_expiry)
  = Return (mkVerifyEmailResponse true) ∧
  fst (serve (password_reset_confirm plain_hash
                (mkPasswordResetConfirm (lit "c@x.com") (lit "222222") (lit "n")))
         (mkEnv (1000000000 + minutes (1000 * 365 * 24 * 60)) 0 [] None None None false true 0)
         Sample.no_expiry)
  = Return (mkOkResponse true (Some "Пароль изменён"%string)).
Proof.
  destruct (null_expiry_never_expires plain_hash
              (mkEnv (1000000000 + minutes (1000 * 365 * 24 * 60)) 0 [] None
                 None None false true 0)
              Sample.no_expiry 0%nat Sample.carol) as (Hv & Hr).
  split.
  - destruct (Hv (mkVerifyEmailRequest (lit "c@x.com") (lit "111111"))
                eq_refl eq_refl eq_refl) as (_ & Hok).
    by rewrite (Hok eq_refl).
  - destruct (Hr (mkPasswordResetConfirm (lit "c@x.com") (lit "222222") (lit "n"))
                eq_refl eq_refl eq_refl) as (_ & Hok).
    by rewrite (Hok eq_refl).
Defined.

(** ** Passwords are cut at 72 characters *)

Lemma plain_hasher_sound s p : plain_verify p (plain_hash s p) = true.
Proof.
  unfold plain_verify, plain_hash.
  rewrite Nat2N.id, drop_app_length. by apply bool_decide_true.
Qed.

Lemma slice_to_take n (s : str) :
  slice_to n s `prefix_of` s ∧ length (slice_to n s) = Nat.min n (length s).
Proof.
  unfold slice_to. split; [apply prefix_take|apply length_take].
Qed.

(** C10. What [signup], [login] and [password_reset_confirm] hand to the
    hasher is the password cut after its first 72 characters: a prefix of
    the password, 72 characters long or the whole password when it is
    shorter.  The hash a first signup stores and the hash a confirmed reset
    stores are the hashes of that prefix, and [login] succeeds exactly when
    that prefix verifies against the stored hash.  Hence two passwords that
    agree on their first 72 characters get the same answer and leave the
    same world, from all three, in every environment and world. *)
Theorem password_cut_at_72 pwd_hash pwd_verify p q env w :
  (slice_to 72 p `prefix_of` p ∧
   length (slice_to 72 p) = Nat.min 72 (length p) ∧
   ((length p ≤ 72)%nat → slice_to 72 p = p)) ∧
  (∀ e r,
     lookup_email e (db w) = None →
     (length (default [] (or_else r None)) ≤ 50)%nat →
     ∃ i u,
       lookup_email e
         (db (snd (serve (signup pwd_hash (mkSignupRequest e p r)) env w)))
       = Some (i, u) ∧
       password_hash u = pwd_hash (salt env) (take 72 p)) ∧
  (∀ e i u,
     lookup_email e (db w) = Some (i, u) →
     serve (login pwd_verify (mkLoginRequest e p)) env w
     = (if pwd_verify (take 72 p) (password_hash u)
        then Return (mkLoginResponse true (id u) (email u))
        else Raise InvalidCredentials, w)) ∧
  (∀ e c r w',
     serve (password_reset_confirm pwd_hash (mkPasswordResetConfirm e c p))
       env w = (Return r, w') →
     ∃ i u, lookup_email e (db w') = Some (i, u) ∧
            password_hash u = pwd_hash (salt env) (take 72 p)) ∧
  (slice_to 72 p = slice_to 72 q →
   (∀ e r,
      serve (signup pwd_hash (mkSignupRequest e p r)) env w
      = serve (signup pwd_hash (mkSignupRequest e q r)) env w) ∧
   (∀ e,
      serve (login pwd_verify (mkLoginRequest e p)) env w
      = serve (login pwd_verify (mkLoginRequest e q)) env w) ∧
   (∀ e c,
      serve (password_reset_confirm pwd_hash (mkPasswordResetConfirm e c p))
        env w
      = serve (password_reset_confirm pwd_hash (mkPasswordResetConfirm e c q))
          env w)).
Proof.
  repeat apply conj.
  - apply slice_to_take.
  - apply slice_to_take.
  - intros Hlen. unfold slice_to. by apply take_ge.
  - intros e r Hf Hfit. rewrite signup_eq. cbn [su_email su_password].
    rewrite Hf. cbn zeta. unfold fits_columns, new_user at 1.
    cbn [referral_code su_referralCode]. rewrite bool_decide_true by done.
    cbn [snd db]. eexists _, _.
    split; [by apply lookup_email_insert|done].
  - intros e i u Hf. rewrite login_eq. cbn [li_email li_password].
    rewrite Hf. unfold slice_to. by destruct (pwd_verify _ _).
  - intros e c r w'. rewrite password_reset_confirm_eq.
    cbn [pc_email pc_code pc_new_password].
    destruct (lookup_email e (db w)) as [[i u]|] eqn:Hf; [|done].
    repeat case_match; try done. intros [= <- <-]. cbn [db].
    eexists i, _. split; [by eapply lookup_email_update|done].
  - intros Hpq. split_and!.
    + intros e r. rewrite !signup_eq. cbn [su_email su_password].
      rewrite Hpq. destruct (lookup_email e (db w)) as [[i u]|]; done.
    + intros e. rewrite !login_eq. cbn [li_email li_password].
      by rewrite Hpq.
    + intros e c. rewrite !password_reset_confirm_eq.
      cbn [pc_email pc_code pc_new_password]. by rewrite Hpq.
Qed.

(** C10 at sample data.  Alice has signed up with a password of 73
    characters: the stored hash is that of its first 72.  A password that
    differs from hers in the last of these 72 is turned away; one that
    differs in the 73rd only logs her in, and signing up with the one or
    the other is the same. *)
Lemma password_cut_at_72_witness :
  (password_hash <$> find_user Sample.alice (db Sample.long_signed_up))
  = Some (plain_hash (lit "NaCl") (replicate 72 97%N)) ∧
  fst (serve (login plain_verify
                (mkLoginRequest Sample.alice
                   (replicate 71 97%N ++ lit "b1")))
         Sample.env1 Sample.long_signed_up)
  = Raise InvalidCredentials ∧
  fst (serve (login plain_verify (mkLoginRequest Sample.alice Sample.long_new))
         Sample.env1 Sample.long_signed_up)
  = Return (mkLoginResponse true 1 Sample.alice) ∧
  Sample.long_old ≠ Sample.long_new ∧
  serve (signup plain_hash (mkSignupRequest Sample.bob Sample.long_old None))
    Sample.env0 Sample.signed_up
  = serve (signup plain_hash (mkSignupRequest Sample.bob Sample.long_new None))
      Sample.env0 Sample.signed_up.
Proof.
  split_and!.
  - destruct (password_cut_at_72 plain_hash plain_verify Sample.long_old
                Sample.long_new Sample.env0 Sample.empty)
      as (_ & Hsignup & _).
    destruct (Hsignup Sample.alice None eq_refl ltac:(cbn; lia))
      as (i & u & Hf & Hh).
    unfold find_user. change Sample.long_signed_up with
      (snd (serve (signup plain_hash
                     (mkSignupRequest Sample.alice Sample.long_old None))
              Sample.env0 Sample.empty)).
    rewrite Hf. cbn [fmap option_fmap option_map snd]. by rewrite Hh.
  - destruct (password_cut_at_72 plain_hash plain_verify
                (replicate 71 97%N ++ lit "b1") Sample.long_new Sample.env1
                Sample.long_signed_up) as (_ & _ & Hlogin & _).
    by rewrite (Hlogin Sample.alice 0%nat
                  (default Sample.carol
                     (find_user Sample.alice (db Sample.long_signed_up)))
                  eq_refl).
  - destruct (password_cut_at_72 plain_hash plain_verify Sample.long_new
                Sample.long_old Sample.env1 Sample.long_signed_up)
      as (_ & _ & Hlogin & _).
    by rewrite (Hlogin Sample.alice 0%nat
                  (default Sample.carol
                     (find_user Sample.alice (db Sample.long_signed_up)))
                  eq_refl).
  - intros Heq. by apply (f_equal (λ l : str, l !! 72%nat)) in Heq.
  - apply (password_cut_at_72 plain_hash plain_verify Sample.long_old
             Sample.long_new Sample.env0 Sample.signed_up). reflexivity.
Defined.

(** ** Confirming a password reset *)

(** C7 as stated fails: Alice's old and new passwords differ, she confirms
    the reset with the right code in time, and her old password still logs
    her in, because the two agree on their first 72 characters. *)
Lemma reset_confirm_old_password_survives :
  Sample.long_old ≠ Sample.long_new ∧
  fst (serve (login plain_verify (mkLoginRequest Sample.alice Sample.long_old))
         Sample.env1 Sample.long_requested)
  = Return (mkLoginResponse true 1 Sample.alice) ∧
  serve (password_reset_confirm plain_hash
           (mkPasswordResetConfirm Sample.alice (lit "654321") Sample.long_new))
    Sample.env1 Sample.long_requested
  = (Return (mkOkResponse true (Some "Пароль изменён"%string)),
     Sample.long_confirmed) ∧
  (password_hash <$> find_user Sample.alice (db Sample.long_confirmed))
  = Some (plain_hash (salt Sample.env1) (slice_to 72 Sample.long_new)) ∧
  fst (serve (login plain_verify (mkLoginRequest Sample.alice Sample.long_old))
         Sample.env_late Sample.long_confirmed)
  = Return (mkLoginResponse true 1 Sample.alice).
Proof.
  split_and!; try reflexivity.
  intros Heq. by apply (f_equal (λ l : str, l !! 72%nat)) in Heq.
Qed.

(** C7, amended. With a hasher that verifies what it has hashed: when a
    non-empty reset code is pending and not expired,
    [password_reset_confirm] with that code replaces the password hash by
    the hash of the first 72 characters of the new password, clears the
    reset code and its expiry and touches nothing else.  Afterwards the new
    password logs in, and any other password, the old one included, logs
    in exactly when its first 72 characters verify against the new hash:
    it is turned away when they do not, and it is accepted when they are
    the first 72 characters of the new password. *)
Theorem reset_confirm_replaces_password pwd_hash pwd_verify env w body i u :
  (∀ s p, pwd_verify p (pwd_hash s p) = true) →
  lookup_email (pc_email body) (db w) = Some (i, u) →
  truthy (reset_code u) = true →
  (∀ t, reset_expires_at u = Some t → utcnow env ≤ t) →
  reset_code u = Some (strip (pc_code body)) →
  let h := pwd_hash (salt env) (take 72 (pc_new_password body)) in
  let u' :=
    mkUser (id u) (email u) h
      (referral_code u) (created_at u) (verification_code u)
      (verification_expires_at u) (is_verified u) None None (is_admin u) in
  let w' := mkWorld (mkDB (<[i := u']> (rows (db w))) (next_id (db w)))
              (mailbox w) in
  serve (password_reset_confirm pwd_hash body) env w
  = (Return (mkOkResponse true (Some "Пароль изменён"%string)), w') ∧
  (∀ env',
     serve (login pwd_verify
              (mkLoginRequest (pc_email body) (pc_new_password body))) env' w'
     = (Return (mkLoginResponse true (id u) (email u)), w')) ∧
  (∀ env' pw,
     serve (login pwd_verify (mkLoginRequest (pc_email body) pw)) env' w'
     = (if pwd_verify (take 72 pw) h
        then Return (mkLoginResponse true (id u) (email u))
        else Raise InvalidCredentials, w')) ∧
  (∀ env' pw,
     pwd_verify (take 72 pw) h = false →
     serve (login pwd_verify (mkLoginRequest (pc_email body) pw)) env' w'
     = (Raise InvalidCredentials, w')) ∧
  (∀ env' pw,
     take 72 pw = take 72 (pc_new_password body) →
     serve (login pwd_verify (mkLoginRequest (pc_email body) pw)) env' w'
     = (Return (mkLoginResponse true (id u) (email u)), w')).
Proof.
  intros Hsound Hf Hp Ht Hc h u' w'.
  assert (Hlogin : ∀ env' pw,
     serve (login pwd_verify (mkLoginRequest (pc_email body) pw)) env' w'
     = (if pwd_verify (take 72 pw) h
        then Return (mkLoginResponse true (id u) (email u))
        else Raise InvalidCredentials, w')).
  { intros env' pw. rewrite login_eq. subst w'. cbn [db mailbox li_email].
    change (mkDB (<[i := u']> (rows (db w))) (next_id (db w)))
      with (update_row i u' (db w)).
    erewrite lookup_email_update by done.
    subst u'. cbn [password_hash id email li_password]. unfold slice_to.
    by destruct (pwd_verify _ _). }
  split_and!.
  - rewrite password_reset_confirm_eq, Hf, Hp. cbn.
    assert (expired (reset_expires_at u) (utcnow env) = false) as ->.
    { unfold expired. destruct (reset_expires_at u) as [t|]; [|done].
      apply bool_decide_false. specialize (Ht t eq_refl). lia. }
    unfold Py.eqb. by rewrite bool_decide_true.
  - intros env'. rewrite Hlogin. subst h. by rewrite Hsound.
  - done.
  - intros env' pw Hno. by rewrite Hlogin, Hno.
  - intros env' pw Hpw. rewrite Hlogin, Hpw. subst h. by rewrite Hsound.
Qed.

(** C7 at sample data: Alice resets [pw1] to [pw2]; afterwards [pw2] logs
    her in and [pw1] does not. *)
Lemma reset_confirm_replaces_password_witness :
  fst (serve (login plain_verify (mkLoginRequest Sample.alice (lit "pw2")))
         Sample.env_late
         (snd (serve (password_reset_confirm plain_hash
                        (mkPasswordResetConfirm Sample.alice (lit " 654321")
                           (lit "pw2")))
                 Sample.env1 Sample.reset_requested)))
  = Return (mkLoginResponse true 1 Sample.alice) ∧
  fst (serve (login plain_verify (mkLoginRequest Sample.alice (lit "pw1")))
         Sample.env_late
         (snd (serve (password_reset_confirm plain_hash
                        (mkPasswordResetConfirm Sample.alice (lit " 654321")
                           (lit "pw2")))
                 Sample.env1 Sample.reset_requested)))
  = Raise InvalidCredentials.
Proof.
  assert (Hfresh : ∀ t, reset_expires_at Sample.alice_pending = Some t →
                        utcnow Sample.env1 ≤ t)
    by (intros t [= <-]; by vm_compute).
  destruct (reset_confirm_replaces_password plain_hash plain_verify
              Sample.env1 Sample.reset_requested
              (mkPasswordResetConfirm Sample.alice (lit " 654321") (lit "pw2"))
              0%nat Sample.alice_pending plain_hasher_sound eq_refl eq_refl
              Hfresh eq_refl) as (Hrun & Hnew & _ & Hold & _).
  rewrite Hrun. cbn [snd]. split.
  - exact (f_equal fst (Hnew Sample.env_late)).
  - exact (f_equal fst (Hold Sample.env_late (lit "pw1") eq_refl)).
Defined.

(** * Further properties *)

(** ** Formatting a code *)

Ltac digit_cases k :=
  let H := fresh in
  assert (H : k = 0 ∨ k = 1 ∨ k = 2 ∨ k = 3 ∨ k = 4 ∨ k = 5 ∨ k = 6 ∨ k = 7
              ∨ k = 8 ∨ k = 9) by lia;
  destruct H as [->|[->|[->|[->|[->|[->|[->|[->|[->| ->]]]]]]]]].

Lemma of_uint_acc_dig k l acc :
  0 ≤ k ≤ 9 →
  Pos.of_uint_acc (dig k l) acc = Pos.of_uint_acc l (Z.to_pos (10 * Z.pos acc + k)).
Proof.
  intros Hk. digit_cases k; cbn [dig Pos.of_uint_acc]; f_equal;
    apply Pos2Z.inj; rewrite Z2Pos.id by lia; lia.
Qed.

Lemma uint_chars_dig k l :
  0 ≤ k ≤ 9 → uint_chars (dig k l) = digit_char k :: uint_chars l.
Proof. intros Hk. by digit_cases k. Qed.

Lemma of_uint_dig_head k l :
  1 ≤ k ≤ 9 →
  Pos.of_uint (dig k l) = N.pos (Pos.of_uint_acc l (Z.to_pos k))
  ∧ unorm (dig k l) = dig k l.
Proof. intros Hk. by digit_cases k; try lia. Qed.

Lemma format_int_six n :
  100000 ≤ n ≤ 999999 →
  format_int n = digit_char <$> decimal6 n.
Proof.
  intros Hn. unfold decimal6.
  set (a := n / 100000). set (b := n / 10000 mod 10).
  set (c := n / 1000 mod 10). set (d := n / 100 mod 10).
  set (e := n / 10 mod 10). set (f := n mod 10).
  assert (Ha : 1 ≤ a ≤ 9) by (subst a; Z.div_mod_to_equations; lia).
  assert (Hb : 0 ≤ b ≤ 9) by (subst b; Z.div_mod_to_equations; lia).
  assert (Hc : 0 ≤ c ≤ 9) by (subst c; Z.div_mod_to_equations; lia).
  assert (Hd : 0 ≤ d ≤ 9) by (subst d; Z.div_mod_to_equations; lia).
  assert (He : 0 ≤ e ≤ 9) by (subst e; Z.div_mod_to_equations; lia).
  assert (Hf : 0 ≤ f ≤ 9) by (subst f; Z.div_mod_to_equations; lia).
  assert (Hsum : n = 100000 * a + 10000 * b + 1000 * c + 100 * d + 10 * e + f)
    by (subst a b c d e f; Z.div_mod_to_equations; lia).
  set (u := dig a (dig b (dig c (dig d (dig e (dig f Nil)))))).
  assert (Hu : Z.of_int (Pos u) = n).
  { unfold Z.of_int, Z.of_uint, u.
    rewrite (proj1 (of_uint_dig_head a _ Ha)).
    rewrite !of_uint_acc_dig by done. cbn [Pos.of_uint_acc Z.of_N].
    rewrite !Z2Pos.id by (rewrite ?Z2Pos.id by lia; lia). lia. }
  unfold format_int. rewrite <- Hu, DecimalZ.to_of.
  cbn [norm]. unfold u at 1.
  rewrite (proj2 (of_uint_dig_head a _ Ha)).
  rewrite !uint_chars_dig by lia. done.
Qed.

(** ** Stripping white space *)

Lemma lstrip_blank ws : blank ws → lstrip ws = [].
Proof. induction 1 as [|c ws Hc _ IH]; [done|]. cbn. by rewrite Hc. Qed.

Lemma lstrip_app_blank ws s : blank ws → lstrip (ws ++ s) = lstrip s.
Proof. induction 1 as [|c ws Hc _ IH]; [done|]. cbn. by rewrite Hc. Qed.

Lemma lstrip_head s c : head (lstrip s) = Some c → isspace c = false.
Proof.
  induction s as [|x s IH]; [done|]. cbn.
  destruct (isspace x) eqn:Hx; [done|]. cbn. by intros [= <-].
Qed.

Lemma lstrip_fixed s :
  (∀ c, head s = Some c → isspace c = false) → lstrip s = s.
Proof. destruct s as [|x s]; [done|]. intros H. cbn. by rewrite (H x). Qed.

Lemma lstrip_app s t :
  lstrip s ≠ [] → lstrip (s ++ t) = lstrip s ++ t.
Proof.
  induction s as [|x s IH]; [done|]. cbn.
  destruct (isspace x); [done|]. done.
Qed.

Lemma lstrip_nil_blank s : lstrip s = [] → blank s.
Proof.
  induction s as [|x s IH]; [constructor|]. cbn.
  destruct (isspace x) eqn:Hx; [|done]. intros Hs. constructor; [done|].
  by apply IH.
Qed.

Lemma lstrip_last s c : list.last (lstrip s) = Some c → list.last s = Some c.
Proof.
  induction s as [|x s IH]; [done|]. cbn.
  destruct (isspace x); [|done]. intros Hl. rewrite last_cons.
  by rewrite (IH Hl).
Qed.

Lemma rstrip_app_blank s ws : blank ws → rstrip (s ++ ws) = rstrip s.
Proof.
  intros Hws. unfold rstrip. rewrite reverse_app, lstrip_app_blank; [done|].
  by apply Forall_reverse.
Qed.

Lemma rstrip_fixed s :
  (∀ c, list.last s = Some c → isspace c = false) → rstrip s = s.
Proof.
  intros H. unfold rstrip. rewrite lstrip_fixed, reverse_involutive; [done|].
  intros c. rewrite head_reverse. apply H.
Qed.

Lemma rstrip_last s c : list.last (rstrip s) = Some c → isspace c = false.
Proof.
  unfold rstrip. rewrite last_reverse. apply lstrip_head.
Qed.

Lemma rstrip_head s c : head (rstrip s) = Some c → head s = Some c.
Proof.
  unfold rstrip. rewrite head_reverse. intros H%lstrip_last.
  by rewrite last_reverse in H.
Qed.

Lemma strip_fixed s : trimmed s → strip s = s.
Proof.
  intros [Hh Hl]. unfold strip. rewrite lstrip_fixed by done.
  by apply rstrip_fixed.
Qed.

Lemma strip_trimmed s : trimmed (strip s).
Proof.
  split; intros c H.
  - apply rstrip_head in H. by eapply lstrip_head.
  - by eapply rstrip_last.
Qed.

Lemma strip_idemp s : strip (strip s) = strip s.
Proof. apply strip_fixed, strip_trimmed. Qed.

Lemma strip_pad ws1 s ws2 :
  blank ws1 → blank ws2 → strip (ws1 ++ s ++ ws2) = strip s.
Proof.
  intros H1 H2. unfold strip. rewrite lstrip_app_blank by done.
  destruct (lstrip s) as [|x s'] eqn:Hs.
  - rewrite lstrip_blank; [done|].
    apply Forall_app. split; [by apply lstrip_nil_blank|done].
  - rewrite lstrip_app by by rewrite Hs. rewrite Hs.
    by apply rstrip_app_blank.
Qed.

Lemma isspace_printable c : (33 ≤ c ≤ 132)%N → isspace c = false.
Proof.
  intros Hc. unfold isspace.
  repeat (apply orb_false_intro);
    first [ apply N.eqb_neq; lia
          | apply andb_false_iff; left; apply N.leb_gt; lia
          | apply andb_false_iff; right; apply N.leb_gt; lia ].
Qed.

Lemma is_digit_not_space c : is_digit c = true → isspace c = false.
Proof.
  unfold is_digit. intros H.
  apply andb_true_iff in H as [H1%N.leb_le H2%N.leb_le].
  apply isspace_printable. lia.
Qed.

Lemma six_digits_trimmed c : six_digits c = true → trimmed c ∧ c ≠ [].
Proof.
  unfold six_digits. intros H.
  apply andb_true_iff in H as [H _].
  apply andb_true_iff in H as [Hlen Hd].
  apply bool_decide_eq_true in Hlen.
  rewrite forallb_forall in Hd.
  split; [|by destruct c].
  split; intros x Hx; apply is_digit_not_space, Hd.
  - destruct c; [done|]. injection Hx as ->. by left.
  - apply list_elem_of_In. by eapply last_Some_elem_of.
Qed.

(** ** The generated code *)

Lemma randint_range a b e : a ≤ b → a ≤ randint a b e ≤ b.
Proof.
  intros Hab. unfold randint.
  pose proof (Z.mod_pos_bound e (b - a + 1)). lia.
Qed.

Lemma is_digit_digit_char k : 0 ≤ k ≤ 9 → is_digit (digit_char k) = true.
Proof.
  intros Hk. unfold is_digit, digit_char.
  apply andb_true_iff. split; apply N.leb_le; lia.
Qed.

Lemma format_int_six_digits n :
  100000 ≤ n ≤ 999999 → six_digits (format_int n) = true.
Proof.
  intros Hn. rewrite format_int_six by done. unfold six_digits, decimal6.
  cbn [fmap list_fmap length forallb head].
  rewrite bool_decide_true by done.
  rewrite !is_digit_digit_char by (Z.div_mod_to_equations; lia).
  rewrite bool_decide_false; [done|].
  unfold digit_char. intros [= H]. Z.div_mod_to_equations. lia.
Qed.

Lemma fresh_code_six_digits env : six_digits (fresh_code env) = true.
Proof. apply format_int_six_digits, randint_range. lia. Qed.

Lemma fresh_code_strip env : strip (fresh_code env) = fresh_code env.
Proof. apply strip_fixed, six_digits_trimmed, fresh_code_six_digits. Qed.

Lemma fresh_code_truthy env : truthy (Some (fresh_code env)) = true.
Proof.
  destruct (six_digits_trimmed _ (fresh_code_six_digits env)) as [_ Hne].
  unfold truthy. by destruct (fresh_code env).
Qed.

(** X1. The code a request generates, [f"{randint(100000, 999999)}"], is
    the six decimal digits of a number between 100000 and 999999: six
    ASCII digits, the first not [0].  So it fits the six-character code
    columns, counts as a pending code, and is what [strip] leaves of it. *)
Theorem generated_code_six_digits env :
  100000 ≤ randint 100000 999999 (entropy env) ≤ 999999 ∧
  fresh_code env
  = digit_char <$> decimal6 (randint 100000 999999 (entropy env)) ∧
  length (fresh_code env) = 6%nat ∧
  six_digits (fresh_code env) = true ∧
  truthy (Some (fresh_code env)) = true ∧
  strip (fresh_code env) = fresh_code env.
Proof.
  assert (Hr : 100000 ≤ randint 100000 999999 (entropy env) ≤ 999999)
    by (apply randint_range; lia).
  split; [exact Hr|]. split; [by apply format_int_six|].
  split; [unfold fresh_code; by rewrite format_int_six|].
  split; [apply fresh_code_six_digits|].
  split; [apply fresh_code_truthy | apply fresh_code_strip].
Qed.

(** ** White space around a submitted code *)

(** X2. White space before and after the submitted code does not count:
    [verify_email] and [password_reset_confirm] answer a padded code as
    they answer the code itself, in every environment and world. *)
Theorem code_padding_ignored pwd_hash env w e code ws1 ws2 new_password :
  blank ws1 → blank ws2 →
  serve (verify_email (mkVerifyEmailRequest e (ws1 ++ code ++ ws2))) env w
  = serve (verify_email (mkVerifyEmailRequest e code)) env w ∧
  serve (password_reset_confirm pwd_hash
           (mkPasswordResetConfirm e (ws1 ++ code ++ ws2) new_password)) env w
  = serve (password_reset_confirm pwd_hash
             (mkPasswordResetConfirm e code new_password)) env w.
Proof.
  intros H1 H2. rewrite !verify_email_eq, !password_reset_confirm_eq.
  cbn [ve_email ve_code pc_email pc_code pc_new_password].
  by rewrite strip_pad.
Qed.

(** X2 at sample data: Alice pastes her code with a tab in front and a
    line break behind. *)
Lemma code_padding_ignored_witness :
  fst (serve (verify_email
                (mkVerifyEmailRequest Sample.alice
                   ([9%N; 32%N] ++ lit "123456" ++ [13%N; 10%N])))
         Sample.env1 Sample.signed_up)
  = Return (mkVerifyEmailResponse true).
Proof.
  assert (Hl : blank [9%N; 32%N]) by (by repeat constructor).
  assert (Hr : blank [13%N; 10%N]) by (by repeat constructor).
  rewrite (proj1 (code_padding_ignored plain_hash Sample.env1 Sample.signed_up
                    Sample.alice (lit "123456") _ _ [] Hl Hr)).
  reflexivity.
Defined.

(** ** What a request can do to the world *)

Ltac handle_cases req :=
  destruct req as [body|body|body|body|body]; unfold handle, answer;
  [ rewrite signup_eq | rewrite verify_email_eq | rewrite login_eq
  | rewrite password_reset_request_eq | rewrite password_reset_confirm_eq ];
  (let i := fresh "i" in let u := fresh "u" in let Hf := fresh "Hf" in
   destruct (lookup_email _ _) as [[i u]|] eqn:Hf);
  cbn zeta; repeat case_match; cbn [fst snd].

(** X3. Every request to one of the five account routes is answered with
    status 200, 400, 401, 422 or 500.  One answered with 400, 401 or 422
    has changed neither the table nor the delivered mails, and neither has
    any [login], whatever its answer.  One answered with 500 has changed
    nothing either, unless the mail function raised. *)
Theorem client_errors_change_nothing {Raw : Type} pwd_hash pwd_verify
    (parse : Raw → option Request) raw env w :
  (fst (route pwd_hash pwd_verify parse raw env w) = 200 ∨
   fst (route pwd_hash pwd_verify parse raw env w) = 400 ∨
   fst (route pwd_hash pwd_verify parse raw env w) = 401 ∨
   fst (route pwd_hash pwd_verify parse raw env w) = 422 ∨
   fst (route pwd_hash pwd_verify parse raw env w) = 500) ∧
  (fst (route pwd_hash pwd_verify parse raw env w) = 400 ∨
   fst (route pwd_hash pwd_verify parse raw env w) = 401 ∨
   fst (route pwd_hash pwd_verify parse raw env w) = 422 →
   snd (route pwd_hash pwd_verify parse raw env w) = w) ∧
  (∀ body, parse raw = Some (PostLogin body) →
   snd (route pwd_hash pwd_verify parse raw env w) = w) ∧
  (fst (route pwd_hash pwd_verify parse raw env w) = 500 →
   snd (route pwd_hash pwd_verify parse raw env w) = w ∨
   send_returns env = false).
Proof.
  unfold route. destruct (parse raw) as [req|]; [|by split_and!; auto].
  handle_cases req.
  all: cbn; unfold send_error; repeat case_match; cbn.
  all: split_and!; try done; auto 6.
  all: try (intros [?|[?|?]]; done).
Qed.

(** ** What no request changes *)

Lemma same_identity_refl u : same_identity u u.
Proof. by repeat split. Qed.

Lemma same_identity_trans u v x :
  same_identity u v → same_identity v x → same_identity u x.
Proof. unfold same_identity. intros (?&?&?&?&?) (?&?&?&?&?). split_and!; congruence. Qed.

Lemma update_row_lookup d i u u' j v :
  rows d !! i = Some u → rows d !! j = Some v →
  rows (update_row i u' d) !! j = Some (if decide (i = j) then u' else v).
Proof.
  intros Hi Hj. unfold update_row. cbn. case_decide as Hij.
  - subst j. apply list_lookup_insert_eq. by eapply lookup_lt_Some.
  - by rewrite list_lookup_insert_ne.
Qed.

Lemma insert_row_lookup d u j v :
  rows d !! j = Some v → rows (insert_row u d) !! j = Some v.
Proof. intros Hj. unfold insert_row. cbn. by apply lookup_app_l_Some. Qed.

Ltac row_after Hj :=
  lazymatch goal with
  | Hf : lookup_email _ _ = Some (?i, ?u0) |- context [update_row ?i ?u' ?d] =>
      let Hi := fresh "Hi" in
      pose proof (lookup_email_row _ _ _ _ Hf) as Hi;
      rewrite (update_row_lookup d i u0 u' _ _ Hi Hj);
      case_decide; simplify_eq
  | |- context [insert_row ?u' ?d] =>
      rewrite (insert_row_lookup d u' _ _ Hj)
  | |- _ => rewrite Hj
  end.

Lemma handle_frame pwd_hash pwd_verify req env w j u :
  rows (db w) !! j = Some u →
  ∃ u', rows (db (snd (handle pwd_hash pwd_verify req env w))) !! j = Some u' ∧
        same_identity u u' ∧
        (is_verified u = true → is_verified u' = true).
Proof.
  intros Hj. handle_cases req; cbn [db mailbox]; row_after Hj.
  all: eexists; split; [done|]; split; [by repeat split|]; cbn; auto.
Qed.

Lemma outbox_after_prefix env mb m : mb `prefix_of` outbox_after env mb m.
Proof.
  unfold outbox_after. destruct (delivers env); [by apply prefix_app_r|done].
Qed.

Lemma handle_mailbox pwd_hash pwd_verify req env w :
  mailbox w `prefix_of` mailbox (snd (handle pwd_hash pwd_verify req env w)).
Proof.
  handle_cases req; cbn [db mailbox]; try done; apply outbox_after_prefix.
Qed.

(** X4. Whatever requests are served, in whatever environments, an account
    in the table stays there at its position with its id, email, referral
    code, creation time and admin flag; once verified it stays verified;
    and no delivered mail is taken back. *)
Theorem accounts_persist pwd_hash pwd_verify reqs w j u :
  rows (db w) !! j = Some u →
  (∃ u', rows (db (run pwd_hash pwd_verify reqs w)) !! j = Some u' ∧
         same_identity u u' ∧
         (is_verified u = true → is_verified u' = true)) ∧
  mailbox w `prefix_of` mailbox (run pwd_hash pwd_verify reqs w).
Proof.
  revert w u. induction reqs as [|[req env] reqs IH]; intros w u Hj.
  - split; [|done]. exists u. by split_and!; [|apply same_identity_refl|].
  - cbn [run].
    destruct (handle_frame pwd_hash pwd_verify req env w j u Hj)
      as (v & Hv & Hid & Hver).
    destruct (IH _ _ Hv) as ((u' & Hu' & Hid' & Hver') & Hmail).
    split.
    + exists u'. split_and!; [done|by eapply same_identity_trans|auto].
    + etrans; [apply handle_mailbox|done].
Qed.

(** X4 at sample data: after a second signup, a verification, a reset and
    a login, Alice's row is still the first, with her id and address. *)
Lemma accounts_persist_witness :
  ∃ u',
    rows (db (run plain_hash plain_verify
                [(PostSignup (mkSignupRequest Sample.alice (lit "x") None),
                  Sample.env1);
                 (PostVerifyEmail (mkVerifyEmailRequest Sample.alice (lit "654321")),
                  Sample.env1);
                 (PostPasswordResetRequest (mkPasswordResetRequest Sample.alice),
                  Sample.env0);
                 (PostPasswordResetConfirm
                    (mkPasswordResetConfirm Sample.alice (lit "123456") (lit "pw3")),
                  Sample.env0);
                 (PostLogin (mkLoginRequest Sample.alice (lit "pw3")),
                  Sample.env_late)]
                Sample.signed_up)) !! 0%nat = Some u' ∧
    id u' = 1 ∧ email u' = Sample.alice ∧ is_verified u' = true.
Proof.
  destruct (accounts_persist plain_hash plain_verify
              [(PostSignup (mkSignupRequest Sample.alice (lit "x") None),
                Sample.env1);
               (PostVerifyEmail (mkVerifyEmailRequest Sample.alice (lit "654321")),
                Sample.env1);
               (PostPasswordResetRequest (mkPasswordResetRequest Sample.alice),
                Sample.env0);
               (PostPasswordResetConfirm
                  (mkPasswordResetConfirm Sample.alice (lit "123456") (lit "pw3")),
                Sample.env0);
               (PostLogin (mkLoginRequest Sample.alice (lit "pw3")),
                Sample.env_late)]
              Sample.signed_up 0%nat
              (default Sample.carol (find_user Sample.alice (db Sample.signed_up)))
              eq_refl) as ((u' & Hu' & (Hid & Hem & _) & _) & _).
  exists u'. split; [exact Hu'|]. split; [exact Hid|]. split; [exact Hem|].
  vm_compute in Hu'. by injection Hu' as <-.
Defined.

(** ** Credentials change only against the pending code *)

Ltac read_tests :=
  repeat match goal with
  | H : negb _ = false |- _ => apply negb_false_iff in H
  | H : negb _ = true |- _ => apply negb_true_iff in H
  | H : Py.eqb _ _ = true |- _ => apply bool_decide_eq_true in H
  end.

(** X5. A request changes the password hash of an account only if it is a
    [password_reset_confirm] for the account's address that is answered
    with 200 and presents, up to surrounding white space, the non-empty
    reset code stored in the row, no later than the stored expiry; the new
    hash is then that of the first 72 characters of the new password. *)
Theorem password_changes_need_reset_code pwd_hash pwd_verify req env w j u u' :
  rows (db w) !! j = Some u →
  rows (db (snd (handle pwd_hash pwd_verify req env w))) !! j = Some u' →
  password_hash u' ≠ password_hash u →
  ∃ body,
    req = PostPasswordResetConfirm body ∧
    fst (handle pwd_hash pwd_verify req env w) = 200 ∧
    pc_email body = email u ∧
    truthy (reset_code u) = true ∧
    reset_code u = Some (strip (pc_code body)) ∧
    expired (reset_expires_at u) (utcnow env) = false ∧
    password_hash u'
    = pwd_hash (salt env) (slice_to 72 (pc_new_password body)).
Proof.
  intros Hj. revert u'.
  handle_cases req; cbn [db mailbox]; row_after Hj; intros u' [= <-] Hne;
    try done.
  read_tests. exists body.
  split_and!; try done. symmetry. by eapply lookup_email_email.
Qed.

(** X6. A request turns an unverified account into a verified one only if
    it is a [verify_email] for the account's address that presents, up to
    surrounding white space, the non-empty verification code stored in the
    row, no later than the stored expiry. *)
Theorem verification_needs_code pwd_hash pwd_verify req env w j u u' :
  rows (db w) !! j = Some u →
  rows (db (snd (handle pwd_hash pwd_verify req env w))) !! j = Some u' →
  is_verified u = false → is_verified u' = true →
  ∃ body,
    req = PostVerifyEmail body ∧
    fst (handle pwd_hash pwd_verify req env w) = 200 ∧
    ve_email body = email u ∧
    truthy (verification_code u) = true ∧
    verification_code u = Some (strip (ve_code body)) ∧
    expired (verification_expires_at u) (utcnow env) = false.
Proof.
  intros Hj. revert u'.
  handle_cases req; cbn [db mailbox]; row_after Hj; intros u' [= <-] Hu Hu';
    try (cbn in Hu'; congruence).
  read_tests. exists body.
  split_and!; try done. symmetry. by eapply lookup_email_email.
Qed.

(** X5 at sample data: Alice confirms her reset with code 654321. *)
Lemma password_changes_need_reset_code_witness :
  ∃ body,
    PostPasswordResetConfirm
      (mkPasswordResetConfirm Sample.alice (lit "654321") (lit "pw2"))
    = PostPasswordResetConfirm body ∧
    reset_code Sample.alice_pending = Some (strip (pc_code body)).
Proof.
  destruct (password_changes_need_reset_code plain_hash plain_verify
              (PostPasswordResetConfirm
                 (mkPasswordResetConfirm Sample.alice (lit "654321") (lit "pw2")))
              Sample.env1 Sample.reset_requested 0%nat Sample.alice_pending
              (with_password (plain_hash (lit "KBr") (lit "pw2"))
                 Sample.alice_pending)
              eq_refl eq_refl)
    as (body & Hreq & _ & _ & _ & Hcode & _).
  - vm_compute. intros [=].
  - by exists body.
Defined.

(** X6 at sample data: Alice verifies with code 123456. *)
Lemma verification_needs_code_witness :
  ∃ body,
    PostVerifyEmail (mkVerifyEmailRequest Sample.alice (lit "123456"))
    = PostVerifyEmail body ∧
    verification_code Sample.alice_pending = Some (strip (ve_code body)).
Proof.
  destruct (verification_needs_code plain_hash plain_verify
              (PostVerifyEmail (mkVerifyEmailRequest Sample.alice (lit "123456")))
              Sample.env1 Sample.reset_requested 0%nat Sample.alice_pending
              (verified Sample.alice_pending)
              eq_refl eq_refl eq_refl eq_refl)
    as (body & Hreq & _ & _ & _ & Hcode & _).
  by exists body.
Defined.

(** ** The table stays well formed *)

Lemma row_ok_verified u : row_ok u → row_ok (verified u).
Proof. intros [? ? ? ? ?]. by split. Qed.

Lemma row_ok_with_verification env u :
  row_ok u → is_verified u = false → row_ok (with_verification env u).
Proof.
  intros [? ? ? ? ?] Hu. split; cbn; try done.
  - congruence.
  - intros c [= <-]. apply fresh_code_six_digits.
Qed.

Lemma row_ok_with_reset env u : row_ok u → row_ok (with_reset env u).
Proof.
  intros [? ? ? ? ?]. split; cbn; try done.
  intros c [= <-]. apply fresh_code_six_digits.
Qed.

Lemma row_ok_with_password h u : row_ok u → row_ok (with_password h u).
Proof. intros [? ? ? ? ?]. by split. Qed.

Lemma row_ok_new_user h body env d : row_ok (new_user h body env d).
Proof.
  split; cbn; try done.
  intros c [= <-]. apply fresh_code_six_digits.
Qed.

Lemma table_ok_update d i u u' :
  table_ok d → rows d !! i = Some u → email u' = email u → row_ok u' →
  table_ok (update_row i u' d).
Proof.
  intros [Hnd Hall] Hi He Hok. split; cbn.
  - rewrite list_fmap_insert, He, list_insert_id; [done|].
    by rewrite list_lookup_fmap, Hi.
  - by apply Forall_insert.
Qed.

Lemma table_ok_insert d u :
  table_ok d → lookup_email (email u) d = None → row_ok u →
  table_ok (insert_row u d).
Proof.
  intros [Hnd Hall] Hnone Hok. split; cbn.
  - rewrite fmap_app. apply list.NoDup_app.
    split_and!; [done| |apply NoDup_singleton].
    intros e He ->%list_elem_of_singleton.
    apply list_elem_of_fmap in He as (v & Hv & Hin).
    apply list_find_None in Hnone. rewrite list.Forall_forall in Hnone.
    by apply (Hnone v).
  - apply list.Forall_app. split; [done|]. by apply Forall_singleton.
Qed.

Lemma table_ok_row d i u : table_ok d → rows d !! i = Some u → row_ok u.
Proof. intros [_ Hall] Hi. by eapply Forall_lookup_1. Qed.

Lemma handle_table_ok pwd_hash pwd_verify req env w :
  table_ok (db w) → table_ok (db (snd (handle pwd_hash pwd_verify req env w))).
Proof.
  intros Hok. handle_cases req; cbn [db mailbox]; try done.
  all: read_tests.
  all: try (eapply table_ok_update; [done|by eapply lookup_email_row|done|]).
  all: try (apply table_ok_insert; [done|done|apply row_ok_new_user]).
  all: pose proof (table_ok_row _ _ _ Hok (lookup_email_row _ _ _ _ Hf)).
  all: auto using row_ok_verified, row_ok_with_verification,
         row_ok_with_reset, row_ok_with_password.
Qed.

(** X7. From a well-formed table, and so from an empty one, every sequence
    of requests leads to a well-formed table: no two rows share an email;
    in every row each code is there exactly when its expiry is, a stored
    code is six digits, and a verified account has no verification code
    pending. *)
Theorem table_stays_well_formed pwd_hash pwd_verify reqs w :
  table_ok (db w) → table_ok (db (run pwd_hash pwd_verify reqs w)).
Proof.
  revert w. induction reqs as [|[req env] reqs IH]; intros w Hok; [done|].
  cbn [run]. by apply IH, handle_table_ok.
Qed.

(** X7 at sample data: from the empty table, Alice and Bob sign up, Alice
    signs up again and verifies. *)
Lemma table_stays_well_formed_witness :
  table_ok
    (db (run plain_hash plain_verify
           [(PostSignup (mkSignupRequest Sample.alice (lit "pw1") None),
             Sample.env0);
            (PostSignup (mkSignupRequest Sample.bob (lit "pw") None),
             Sample.env_down);
            (PostSignup (mkSignupRequest Sample.alice (lit "pw9") None),
             Sample.env1);
            (PostVerifyEmail (mkVerifyEmailRequest Sample.alice (lit "654321")),
             Sample.env1)]
           Sample.empty)).
Proof.
  apply table_stays_well_formed. split; constructor.
Defined.

(** ** The mail and the table agree *)

Lemma delivers_error_status env :
  delivers env = true → status_of (A := OkResponse) (Raise (send_error env)) = 500.
Proof. unfold send_error. by destruct (smtp_configured env). Qed.

(** X8. A request delivers at most one mail.  A mail that is delivered goes
    to the address of an account in the table and quotes the code just
    generated, which is the code now stored in that account's row with an
    expiry ten minutes from now: the verification code of a still
    unverified account for a [signup], the reset code for a
    [password_reset_request].  The request is then answered with 200, or
    with 500 when the server took the message and closing the connection
    failed. *)
Theorem mail_quotes_stored_code pwd_hash pwd_verify req env w :
  mailbox (snd (handle pwd_hash pwd_verify req env w)) = mailbox w ∨
  ∃ m i u,
    mailbox (snd (handle pwd_hash pwd_verify req env w)) = mailbox w ++ [m] ∧
    delivers env = true ∧
    (fst (handle pwd_hash pwd_verify req env w)
     = if quit_ok env then 200 else 500) ∧
    quoted_code m = fresh_code env ∧
    lookup_email (rcpt m) (db (snd (handle pwd_hash pwd_verify req env w)))
    = Some (i, u) ∧
    match purpose m with
    | Verification =>
        (∃ body, req = PostSignup body) ∧ is_verified u = false ∧
        verification_code u = Some (quoted_code m) ∧
        verification_expires_at u = Some (utcnow env + minutes 10)
    | Reset =>
        (∃ body, req = PostPasswordResetRequest body) ∧
        reset_code u = Some (quoted_code m) ∧
        reset_expires_at u = Some (utcnow env + minutes 10)
    end.
Proof.
  handle_cases req; cbn [db mailbox]; try (by left).
  all: unfold outbox_after; destruct (delivers env) eqn:Hd; [right|by left].
  all: pose proof (delivers_error_status env Hd) as Herr.
  all: unfold send_returns in *; rewrite Hd in *; cbn [andb] in *.
  all: try congruence.
  all: eexists _, _, _; split_and!; try done.
  all: try (cbn [rcpt];
            first [ by apply lookup_email_insert
                  | match goal with
                    | Hf : lookup_email _ _ = Some _ |- _ =>
                        rewrite (lookup_email_email _ _ _ _ Hf);
                        by eapply lookup_email_update
                    end ]).
  all: cbn; split_and!; eauto.
Qed.

(** ** From the mail to the account *)

Lemma verify_email_pending e code env w i u c t :
  lookup_email e (db w) = Some (i, u) →
  verification_code u = Some c → truthy (Some c) = true →
  verification_expires_at u = Some t →
  serve (verify_email (mkVerifyEmailRequest e code)) env w
  = if bool_decide (t < utcnow env) then (Raise CodeExpired, w)
    else if bool_decide (c = strip code)
    then (Return (mkVerifyEmailResponse true),
          mkWorld (update_row i (verified u) (db w)) (mailbox w))
    else (Raise InvalidCode, w).
Proof.
  intros Hf Hc Ht He. rewrite verify_email_eq. cbn [ve_email ve_code].
  rewrite Hf, Hc, Ht, He. cbn [negb expired]. unfold Py.eqb.
  case_bool_decide; [done|].
  case_bool_decide as Hcode.
  - rewrite bool_decide_true by congruence. done.
  - rewrite bool_decide_false by congruence. done.
Qed.

Lemma password_reset_confirm_pending pwd_hash e code new_password env w i u c t :
  lookup_email e (db w) = Some (i, u) →
  reset_code u = Some c → truthy (Some c) = true →
  reset_expires_at u = Some t →
  serve (password_reset_confirm pwd_hash
           (mkPasswordResetConfirm e code new_password)) env w
  = if bool_decide (t < utcnow env) then (Raise CodeExpired, w)
    else if bool_decide (c = strip code)
    then (Return (mkOkResponse true (Some "Пароль изменён"%string)),
          mkWorld
            (update_row i
               (with_password (pwd_hash (salt env) (slice_to 72 new_password)) u)
               (db w))
            (mailbox w))
    else (Raise InvalidCode, w).
Proof.
  intros Hf Hc Ht He. rewrite password_reset_confirm_eq.
  cbn [pc_email pc_code pc_new_password].
  rewrite Hf, Hc, Ht, He. cbn [negb expired]. unfold Py.eqb.
  case_bool_decide; [done|].
  case_bool_decide as Hcode.
  - rewrite bool_decide_true by congruence. done.
  - rewrite bool_decide_false by congruence. done.
Qed.

Lemma outbox_after_returned env mb m :
  send_returns env = true → outbox_after env mb m = mb ++ [m].
Proof.
  unfold send_returns, outbox_after. by destruct (delivers env).
Qed.

(** What a [signup] answered with 200 leaves behind. *)
Lemma signup_ok pwd_hash body env w r w1 :
  serve (signup pwd_hash body) env w = (Return r, w1) →
  mailbox w1
  = mailbox w ++ [mkEmail Verification (su_email body) (fresh_code env)] ∧
  ∃ i u, lookup_email (su_email body) (db w1) = Some (i, u) ∧
         su_id r = id u ∧ is_verified u = false ∧
         verification_code u = Some (fresh_code env) ∧
         verification_expires_at u = Some (utcnow env + minutes 10).
Proof.
  rewrite signup_eq.
  destruct (lookup_email _ (db w)) as [[i u]|] eqn:Hf; cbn zeta.
  - destruct (is_verified u) eqn:Hu; [done|].
    destruct (send_returns env) eqn:Hs; [|done].
    intros [= <- <-]. cbn [db mailbox].
    rewrite (outbox_after_returned _ _ _ Hs).
    rewrite (lookup_email_email _ _ _ _ Hf). split; [done|].
    exists i, (with_verification env u).
    split; [by eapply lookup_email_update|]. by split_and!.
  - destruct (fits_columns _); [|done].
    destruct (send_returns env) eqn:Hs; [|done].
    intros [= <- <-]. cbn [db mailbox].
    rewrite (outbox_after_returned _ _ _ Hs).
    split; [done|]. eexists _, _.
    split; [by apply lookup_email_insert|]. by split_and!.
Qed.

(** X9. After a [signup] answered with 200, the last mail delivered goes to
    the address of the request and quotes a code with which [verify_email]
    succeeds and marks the account verified, at any instant up to and
    including ten minutes after the signup.  One microsecond later every
    code is answered with [CodeExpired]; before that, any code other than
    the mailed one (up to white space around it) is answered with
    [InvalidCode]; both leave the world as it is. *)
Theorem mailed_code_verifies pwd_hash env w body r w1 :
  serve (signup pwd_hash body) env w = (Return r, w1) →
  list.last (mailbox w1)
  = Some (mkEmail Verification (su_email body) (fresh_code env)) ∧
  ∀ env2 code,
    fst (serve (verify_email (mkVerifyEmailRequest (su_email body) code))
           env2 w1)
    = (if bool_decide (utcnow env + minutes 10 < utcnow env2)
       then Raise CodeExpired
       else if bool_decide (strip code = fresh_code env)
       then Return (mkVerifyEmailResponse true)
       else Raise InvalidCode) ∧
    (utcnow env2 ≤ utcnow env + minutes 10 → strip code = fresh_code env →
     ∃ u, find_user (su_email body)
            (db (snd (serve (verify_email
                               (mkVerifyEmailRequest (su_email body) code))
                        env2 w1))) = Some u ∧
          is_verified u = true ∧ id u = su_id r) ∧
    (utcnow env + minutes 10 < utcnow env2 ∨ strip code ≠ fresh_code env →
     snd (serve (verify_email (mkVerifyEmailRequest (su_email body) code))
            env2 w1) = w1).
Proof.
  intros Hrun.
  destruct (signup_ok _ _ _ _ _ _ Hrun) as (Hmail & i & u & Hf & Hid & Hu & Hc & He).
  split; [rewrite Hmail; apply last_snoc|].
  intros env2 code.
  rewrite (verify_email_pending _ code env2 w1 i u _ _ Hf Hc
             (fresh_code_truthy env) He).
  case_bool_decide as Hlate.
  - split_and!; [done|lia|done].
  - rewrite (bool_decide_ext (fresh_code env = strip code)
               (strip code = fresh_code env)) by done.
    case_bool_decide as Hcode; cbn [fst snd].
    + split_and!; [done| |by intros [?|?]].
      intros _ _. exists (verified u). unfold find_user. cbn [db].
      erewrite lookup_email_update by done. by split_and!.
    + split_and!; [done|done|done].
Qed.

(** X9 at sample data: Alice's code is accepted at the very instant it
    expires and refused a microsecond later. *)
Lemma mailed_code_verifies_witness :
  fst (serve (verify_email (mkVerifyEmailRequest Sample.alice (lit "123456")))
         (mkEnv (1000000000 + minutes 10) 0 [] None None None false true 0)
         Sample.signed_up)
  = Return (mkVerifyEmailResponse true) ∧
  fst (serve (verify_email (mkVerifyEmailRequest Sample.alice (lit "123456")))
         (mkEnv (1000000000 + minutes 10 + 1) 0 [] None None None false true 0)
         Sample.signed_up)
  = Raise CodeExpired.
Proof.
  destruct (mailed_code_verifies plain_hash Sample.env0 Sample.empty
              (mkSignupRequest Sample.alice (lit "pw1") None)
              (mkSignupResponse true 1) Sample.signed_up eq_refl)
    as (_ & Hverify).
  split.
  - exact (proj1 (Hverify (mkEnv (1000000000 + minutes 10) 0 [] None None None
                             false true 0) (lit "123456"))).
  - exact (proj1 (Hverify (mkEnv (1000000000 + minutes 10 + 1) 0 [] None None
                             None false true 0) (lit "123456"))).
Defined.

(** What a [password_reset_request] for an existing account leaves behind
    when it is answered with 200. *)
Lemma password_reset_request_ok body env w r w1 i0 u0 :
  lookup_email (pr_email body) (db w) = Some (i0, u0) →
  serve (password_reset_request body) env w = (Return r, w1) →
  mailbox w1 = mailbox w ++ [mkEmail Reset (pr_email body) (fresh_code env)] ∧
  lookup_email (pr_email body) (db w1) = Some (i0, with_reset env u0).
Proof.
  intros Hf. rewrite password_reset_request_eq, Hf.
  destruct (send_returns env) eqn:Hs; [|done].
  intros [= <- <-]. cbn [db mailbox].
  rewrite (outbox_after_returned _ _ _ Hs).
  rewrite (lookup_email_email _ _ _ _ Hf). split; [done|].
  by eapply lookup_email_update.
Qed.

(** X10. After a [password_reset_request] for an existing account answered
    with 200, the last mail delivered goes to that address and quotes a
    code with which [password_reset_confirm] succeeds at any instant up to
    and including ten minutes after the request; later it is answered with
    [CodeExpired], and before that any other code with [InvalidCode], both
    leaving the world as it is.  After the successful confirmation, with a
    hasher that verifies what it hashed, [login] with the new password
    succeeds, and the code is spent: a further confirmation for the address
    is answered with [InvalidCode] whatever it carries. *)
Theorem mailed_code_resets pwd_hash pwd_verify env w body r w1 i0 u0 :
  (∀ s p, pwd_verify p (pwd_hash s p) = true) →
  lookup_email (pr_email body) (db w) = Some (i0, u0) →
  serve (password_reset_request body) env w = (Return r, w1) →
  list.last (mailbox w1)
  = Some (mkEmail Reset (pr_email body) (fresh_code env)) ∧
  ∀ env2 code new_password,
    fst (serve (password_reset_confirm pwd_hash
                  (mkPasswordResetConfirm (pr_email body) code new_password))
           env2 w1)
    = (if bool_decide (utcnow env + minutes 10 < utcnow env2)
       then Raise CodeExpired
       else if bool_decide (strip code = fresh_code env)
       then Return (mkOkResponse true (Some "Пароль изменён"%string))
       else Raise InvalidCode) ∧
    (utcnow env2 ≤ utcnow env + minutes 10 → strip code = fresh_code env →
     ∀ env3,
       serve (login pwd_verify (mkLoginRequest (pr_email body) new_password))
         env3
         (snd (serve (password_reset_confirm pwd_hash
                        (mkPasswordResetConfirm (pr_email body) code
                           new_password)) env2 w1))
       = (Return (mkLoginResponse true (id u0) (pr_email body)),
          snd (serve (password_reset_confirm pwd_hash
                        (mkPasswordResetConfirm (pr_email body) code
                           new_password)) env2 w1)) ∧
       ∀ code' new_password',
         fst (serve (password_reset_confirm pwd_hash
                       (mkPasswordResetConfirm (pr_email body) code'
                          new_password'))
                env3
                (snd (serve (password_reset_confirm pwd_hash
                               (mkPasswordResetConfirm (pr_email body) code
                                  new_password)) env2 w1)))
         = Raise InvalidCode) ∧
    (utcnow env + minutes 10 < utcnow env2 ∨ strip code ≠ fresh_code env →
     snd (serve (password_reset_confirm pwd_hash
                   (mkPasswordResetConfirm (pr_email body) code new_password))
            env2 w1) = w1).
Proof.
  intros Hsound Hf0 Hrun.
  destruct (password_reset_request_ok _ _ _ _ _ _ _ Hf0 Hrun) as (Hmail & Hf).
  split; [rewrite Hmail; apply last_snoc|].
  intros env2 code new_password.
  rewrite (password_reset_confirm_pending pwd_hash _ code new_password env2 w1
             i0 (with_reset env u0) (fresh_code env) (utcnow env + minutes 10)
             Hf eq_refl (fresh_code_truthy env) eq_refl).
  case_bool_decide as Hlate.
  - split_and!; [done|lia|done].
  - rewrite (bool_decide_ext (fresh_code env = strip code)
               (strip code = fresh_code env)) by done.
    case_bool_decide as Hcode; cbn [fst snd]; [|by split_and!].
    split_and!; [done| |by intros [?|?]].
    intros _ _ env3.
    assert (Hf2 : lookup_email (pr_email body)
                    (update_row i0
                       (with_password
                          (pwd_hash (salt env2) (slice_to 72 new_password))
                          (with_reset env u0)) (db w1))
                  = Some (i0, with_password
                                (pwd_hash (salt env2) (slice_to 72 new_password))
                                (with_reset env u0)))
      by (by eapply lookup_email_update).
    split.
    + rewrite login_eq. cbn [db mailbox li_email li_password]. rewrite Hf2.
      cbn [password_hash with_password set_reset_expires_at set_reset_code
             set_password_hash]. rewrite Hsound. cbn.
      by rewrite (lookup_email_email _ _ _ _ Hf0).
    + intros code' new_password'. rewrite password_reset_confirm_eq.
      cbn [db mailbox pc_email]. by rewrite Hf2.
Qed.

(** X10 at sample data: Alice resets her password with the mailed code and
    logs in with the new one. *)
Lemma mailed_code_resets_witness :
  fst (serve (login plain_verify (mkLoginRequest Sample.alice (lit "pw2")))
         Sample.env_late
         (snd (serve (password_reset_confirm plain_hash
                        (mkPasswordResetConfirm Sample.alice (lit "654321")
                           (lit "pw2")))
                 Sample.env0 Sample.reset_requested)))
  = Return (mkLoginResponse true 1 Sample.alice).
Proof.
  destruct (mailed_code_resets plain_hash plain_verify Sample.env1
              Sample.signed_up (mkPasswordResetRequest Sample.alice)
              (mkOkResponse true (Some "Код отправлен"%string))
              Sample.reset_requested 0%nat
              (default Sample.carol
                 (find_user Sample.alice (db Sample.signed_up)))
              plain_hasher_sound eq_refl eq_refl) as (_ & Hconfirm).
  destruct (Hconfirm Sample.env0 (lit "654321") (lit "pw2"))
    as (_ & Hthen & _).
  destruct (Hthen ltac:(by vm_compute) eq_refl Sample.env_late) as (Hlogin & _).
  cbn [pr_email] in Hlogin. by rewrite Hlogin.
Defined.

(** ** Only the latest code counts *)

(** X11. Once a second [signup] for an unverified account, or a
    [password_reset_request] for an existing one, has been served, whether
    or not its mail was delivered, codes are judged against the one it
    generated.  A code other than that one (up to surrounding white space)
    is refused: the answer is [CodeExpired] or [InvalidCode] and the world
    stays as it is.  The generated code is accepted until its expiry, ten
    minutes after the request.  So the code of an earlier mail stops
    working when a new one is generated, even when the new mail never
    arrives, unless the new draw repeats it, in which case it goes on
    working. *)
Theorem regenerated_code_replaces_old pwd_hash env w i u :
  (∀ body code env2,
     lookup_email (su_email body) (db w) = Some (i, u) →
     is_verified u = false →
     strip code ≠ fresh_code env →
     let w1 := snd (serve (signup pwd_hash body) env w) in
     (fst (serve (verify_email (mkVerifyEmailRequest (su_email body) code))
             env2 w1) = Raise CodeExpired ∨
      fst (serve (verify_email (mkVerifyEmailRequest (su_email body) code))
             env2 w1) = Raise InvalidCode) ∧
     snd (serve (verify_email (mkVerifyEmailRequest (su_email body) code))
            env2 w1) = w1) ∧
  (∀ body code new_password env2,
     lookup_email (pr_email body) (db w) = Some (i, u) →
     strip code ≠ fresh_code env →
     let w1 := snd (serve (password_reset_request body) env w) in
     (fst (serve (password_reset_confirm pwd_hash
                    (mkPasswordResetConfirm (pr_email body) code new_password))
             env2 w1) = Raise CodeExpired ∨
      fst (serve (password_reset_confirm pwd_hash
                    (mkPasswordResetConfirm (pr_email body) code new_password))
             env2 w1) = Raise InvalidCode) ∧
     snd (serve (password_reset_confirm pwd_hash
                   (mkPasswordResetConfirm (pr_email body) code new_password))
            env2 w1) = w1) ∧
  (∀ body code env2,
     lookup_email (su_email body) (db w) = Some (i, u) →
     is_verified u = false →
     strip code = fresh_code env →
     utcnow env2 ≤ utcnow env + minutes 10 →
     let w1 := snd (serve (signup pwd_hash body) env w) in
     fst (serve (verify_email (mkVerifyEmailRequest (su_email body) code))
            env2 w1) = Return (mkVerifyEmailResponse true)) ∧
  (∀ body code new_password env2,
     lookup_email (pr_email body) (db w) = Some (i, u) →
     strip code = fresh_code env →
     utcnow env2 ≤ utcnow env + minutes 10 →
     let w1 := snd (serve (password_reset_request body) env w) in
     fst (serve (password_reset_confirm pwd_hash
                   (mkPasswordResetConfirm (pr_email body) code new_password))
            env2 w1)
     = Return (mkOkResponse true (Some "Пароль изменён"%string))).
Proof.
  assert (Hs : ∀ body, lookup_email (su_email body) (db w) = Some (i, u) →
             is_verified u = false →
             lookup_email (su_email body)
               (db (snd (serve (signup pwd_hash body) env w)))
             = Some (i, with_verification env u)).
  { intros body Hf Hu. rewrite signup_eq, Hf, Hu. cbn zeta.
    cbn [snd db]. by eapply lookup_email_update. }
  assert (Hr : ∀ body, lookup_email (pr_email body) (db w) = Some (i, u) →
             lookup_email (pr_email body)
               (db (snd (serve (password_reset_request body) env w)))
             = Some (i, with_reset env u)).
  { intros body Hf. rewrite password_reset_request_eq, Hf. cbn zeta.
    cbn [snd db]. by eapply lookup_email_update. }
  split_and!.
  - intros body code env2 Hf Hu Hcode w1.
    rewrite (verify_email_pending _ code env2 w1 i _ (fresh_code env)
               (fresh_expiry env) (Hs body Hf Hu) eq_refl
               (fresh_code_truthy env) eq_refl).
    case_bool_decide; [by split; [left|]|].
    rewrite bool_decide_false by congruence. by split; [right|].
  - intros body code new_password env2 Hf Hcode w1.
    rewrite (password_reset_confirm_pending pwd_hash _ code new_password env2
               w1 i _ (fresh_code env) (fresh_expiry env) (Hr body Hf) eq_refl
               (fresh_code_truthy env) eq_refl).
    case_bool_decide; [by split; [left|]|].
    rewrite bool_decide_false by congruence. by split; [right|].
  - intros body code env2 Hf Hu Hcode Htime w1.
    rewrite (verify_email_pending _ code env2 w1 i _ (fresh_code env)
               (fresh_expiry env) (Hs body Hf Hu) eq_refl
               (fresh_code_truthy env) eq_refl).
    rewrite bool_decide_false by (unfold fresh_expiry; lia).
    by rewrite bool_decide_true.
  - intros body code new_password env2 Hf Hcode Htime w1.
    rewrite (password_reset_confirm_pending pwd_hash _ code new_password env2
               w1 i _ (fresh_code env) (fresh_expiry env) (Hr body Hf) eq_refl
               (fresh_code_truthy env) eq_refl).
    rewrite bool_decide_false by (unfold fresh_expiry; lia).
    by rewrite bool_decide_true.
Qed.

(** X11 at sample data: Alice signs up again while the transport is down;
    the code of her first mail, 123456, no longer verifies her, and the
    one drawn for the second, 654321, does. *)
Lemma regenerated_code_replaces_old_witness :
  fst (serve (verify_email (mkVerifyEmailRequest Sample.alice (lit "123456")))
         Sample.env0
         (snd (serve (signup plain_hash
                        (mkSignupRequest Sample.alice (lit "pw1") None))
                 (mkEnv 1000000000 554321 (lit "KBr") None None None false true 0)
                 Sample.signed_up)))
  = Raise InvalidCode ∧
  fst (serve (verify_email (mkVerifyEmailRequest Sample.alice (lit "654321")))
         Sample.env0
         (snd (serve (signup plain_hash
                        (mkSignupRequest Sample.alice (lit "pw1") None))
                 (mkEnv 1000000000 554321 (lit "KBr") None None None false true 0)
                 Sample.signed_up)))
  = Return (mkVerifyEmailResponse true).
Proof.
  destruct (regenerated_code_replaces_old plain_hash
              (mkEnv 1000000000 554321 (lit "KBr") None None None false true 0)
              Sample.signed_up 0%nat
              (default Sample.carol
                 (find_user Sample.alice (db Sample.signed_up))))
    as (Hsignup & _ & Hgood & _).
  split.
  - destruct (Hsignup (mkSignupRequest Sample.alice (lit "pw1") None)
                (lit "123456") Sample.env0 eq_refl eq_refl)
      as ([Hexp|Hinv] & _).
    + vm_compute. intros [=].
    + vm_compute in Hexp. discriminate Hexp.
    + exact Hinv.
  - apply (Hgood (mkSignupRequest Sample.alice (lit "pw1") None)
             (lit "654321") Sample.env0 eq_refl eq_refl).
    + by vm_compute.
    + by vm_compute.
Defined.

(** ** The market-data proxy: time frames *)

Import Stocks.

Lemma ascii_lower_upper c : ascii_lower (ascii_upper c) = ascii_lower c.
Proof.
  unfold ascii_lower, ascii_upper.
  repeat match goal with
  | |- context [(?a <=? ?b)%N] => destruct (N.leb_spec a b)
  end; cbn in *; lia.
Qed.

Lemma ascii_upper_is_ascii c : is_ascii c = true → is_ascii (ascii_upper c) = true.
Proof.
  unfold is_ascii, ascii_upper. intros H%N.ltb_lt.
  repeat match goal with
  | |- context [(?a <=? ?b)%N] => destruct (N.leb_spec a b)
  end; cbn in *; apply N.ltb_lt; lia.
Qed.

Lemma lower_ascii_upper unicode_lower s :
  forallb is_ascii s = true →
  lower unicode_lower (ascii_upper <$> s) = lower unicode_lower s.
Proof.
  intros Hs. unfold lower. rewrite Hs.
  assert (forallb is_ascii (ascii_upper <$> s) = true) as ->.
  { apply forallb_forall. intros c Hc%list_elem_of_In.
    apply list_elem_of_fmap in Hc as (x & -> & Hx).
    apply ascii_upper_is_ascii. rewrite forallb_forall in Hs.
    by apply Hs, list_elem_of_In. }
  rewrite <- list_fmap_compose. apply list_fmap_ext.
  intros _ c _. apply ascii_lower_upper.
Qed.

(** X12. [_tf_to_finnhub_res] always answers with one of the eight
    resolutions of its table and never fails: a missing or empty time
    frame, like one the table does not know, gives ["1"].  For a time frame
    written in ASCII the case of the letters does not matter. *)
Theorem finnhub_resolution_total unicode_lower tf :
  _tf_to_finnhub_res unicode_lower tf
  ∈ [lit "1"; lit "5"; lit "15"; lit "30"; lit "60"; lit "D"; lit "W"; lit "M"] ∧
  _tf_to_finnhub_res unicode_lower None = lit "1" ∧
  _tf_to_finnhub_res unicode_lower (Some []) = lit "1" ∧
  (assoc (lower unicode_lower (default [] tf)) resolutions = None →
   _tf_to_finnhub_res unicode_lower tf = lit "1") ∧
  (∀ s, forallb is_ascii s = true →
     _tf_to_finnhub_res unicode_lower (Some (ascii_upper <$> s))
     = _tf_to_finnhub_res unicode_lower (Some s)).
Proof.
  split_and!.
  - unfold _tf_to_finnhub_res.
    generalize (lower unicode_lower
                  (if truthy tf then default [] tf else lit "1m")).
    intros k. unfold resolutions. cbn [assoc].
    repeat case_decide; cbn; by repeat constructor.
  - done.
  - done.
  - unfold _tf_to_finnhub_res. destruct tf as [[|c s]|]; try done.
    cbn [truthy default]. by intros ->.
  - intros s Hs. unfold _tf_to_finnhub_res.
    assert (truthy (Some (ascii_upper <$> s)) = truthy (Some s)) as ->
      by (by destruct s).
    destruct (truthy (Some s)); [|done].
    change (default [] (Some (ascii_upper <$> s))) with (ascii_upper <$> s).
    by rewrite lower_ascii_upper.
Qed.

(** ** The market-data proxy: the symbols asked about *)

Lemma split_nonempty sep s : split sep s ≠ [].
Proof.
  induction s as [|c s IH]; [done|]. cbn.
  destruct (c =? sep)%N; [done|]. by destruct (split sep s).
Qed.

Lemma split_elem sep s p c :
  p ∈ split sep s → c ∈ p → c ∈ s ∧ c ≠ sep.
Proof.
  revert p. induction s as [|x s IH]; intros p; cbn.
  - intros ->%list_elem_of_singleton Hc. by apply not_elem_of_nil in Hc.
  - destruct (N.eqb_spec x sep) as [->|Hx].
    + intros [->|Hp]%elem_of_cons Hc; [by apply not_elem_of_nil in Hc|].
      destruct (IH p Hp Hc). split; [by right|done].
    + pose proof (split_nonempty sep s) as Hne.
      destruct (split sep s) as [|q qs]; [done|].
      intros [->|Hp]%elem_of_cons Hc.
      * apply elem_of_cons in Hc as [->|Hc]; [split; [by left|done]|].
        destruct (IH q (list_elem_of_here _ _) Hc). split; [by right|done].
      * destruct (IH p (list_elem_of_further _ _ _ Hp) Hc).
        split; [by right|done].
Qed.

Lemma split_length sep s :
  length (split sep s) = S (length (filter (λ c, c = sep) s)).
Proof.
  induction s as [|x s IH]; [done|]. cbn [split].
  destruct (N.eqb_spec x sep) as [->|Hx].
  - rewrite filter_cons_True by done. cbn [length]. by rewrite IH.
  - rewrite filter_cons_False by done. rewrite <- IH.
    pose proof (split_nonempty sep s). by destruct (split sep s).
Qed.

Lemma lstrip_elem s c : c ∈ lstrip s → c ∈ s.
Proof.
  induction s as [|x s IH]; [done|]. cbn.
  destruct (isspace x); [|done]. intros H. right. by apply IH.
Qed.

Lemma strip_elem s c : c ∈ strip s → c ∈ s.
Proof.
  unfold strip, rstrip. rewrite elem_of_reverse. intros H%lstrip_elem.
  rewrite elem_of_reverse in H. by apply lstrip_elem.
Qed.

Lemma ascii_upper_space c : isspace c = false → isspace (ascii_upper c) = false.
Proof.
  unfold ascii_upper.
  destruct (N.leb_spec 97 c), (N.leb_spec c 122); cbn [andb]; try done.
  intros _. apply isspace_printable. lia.
Qed.

Lemma ascii_upper_clean c :
  is_ascii c = true → c ≠ 44%N →
  ascii_upper c ≠ 44%N ∧ is_ascii (ascii_upper c) = true ∧
  ¬ (97 ≤ ascii_upper c ≤ 122)%N.
Proof.
  intros Ha Hc. split_and!; [|by apply ascii_upper_is_ascii|].
  all: unfold ascii_upper;
    destruct (N.leb_spec 97 c), (N.leb_spec c 122); cbn [andb]; lia.
Qed.

Lemma trimmed_fmap (f : N → N) s :
  (∀ c, isspace c = false → isspace (f c) = false) →
  trimmed s → trimmed (f <$> s).
Proof.
  intros Hf [Hh Hl]. split; intros c.
  - destruct s as [|x s]; [done|]. cbn. intros [= <-]. by apply Hf, Hh.
  - rewrite fmap_last. destruct (list.last s) as [x|]; [|done].
    cbn. intros [= <-]. by apply Hf, Hl.
Qed.

Lemma strip_blank s : blank s → strip s = [].
Proof. intros Hs. unfold strip. by rewrite lstrip_blank. Qed.

(** X13. For a list of symbols written in ASCII, what [api_stocks_quotes]
    asks the upstream about is clean: each symbol is non-empty, has no
    white space at either end, no comma and no lower-case letter.  Empty
    and blank entries are dropped, so there are at most as many symbols as
    commas plus one, and none for an empty or blank list. *)
Theorem parsed_symbols_clean unicode_upper symbols :
  forallb is_ascii symbols = true →
  (length (parse_symbols unicode_upper symbols)
   ≤ S (length (filter (λ c, c = 44%N) symbols)))%nat ∧
  (blank symbols → parse_symbols unicode_upper symbols = []) ∧
  Forall (λ sym,
            sym ≠ [] ∧ trimmed sym ∧
            Forall (λ c, c ≠ 44%N ∧ is_ascii c = true ∧ ¬ (97 ≤ c ≤ 122)%N) sym)
    (parse_symbols unicode_upper symbols).
Proof.
  intros Hascii. unfold parse_symbols. split_and!.
  - rewrite length_fmap, <- (split_length 44%N). apply length_filter.
  - intros Hblank.
    destruct (filter _ (split 44%N symbols)) as [|q qs] eqn:Hq; [done|].
    assert (Hin : q ∈ filter (λ s, strip s ≠ []) (split 44%N symbols))
      by (rewrite Hq; left).
    apply list_elem_of_filter in Hin as [Hne Hin].
    destruct Hne. apply strip_blank, list.Forall_forall. intros c Hc.
    destruct (split_elem _ _ _ _ Hin Hc) as [Hs _].
    unfold blank in Hblank. rewrite list.Forall_forall in Hblank. auto.
  - apply list.Forall_forall. intros sym Hsym.
    apply list_elem_of_fmap in Hsym as (p & -> & Hp).
    apply list_elem_of_filter in Hp as [Hne Hp].
    assert (Hcs : ∀ c, c ∈ strip p → is_ascii c = true ∧ c ≠ 44%N).
    { intros c Hc%strip_elem. destruct (split_elem _ _ _ _ Hp Hc) as [Hs ?].
      split; [|done]. rewrite forallb_forall in Hascii.
      by apply Hascii, list_elem_of_In. }
    assert (Hup : upper unicode_upper (strip p) = ascii_upper <$> strip p).
    { unfold upper.
      assert (forallb is_ascii (strip p) = true) as ->; [|done].
      apply forallb_forall. intros c Hc%list_elem_of_In. by apply Hcs. }
    rewrite Hup. split_and!.
    + by destruct (strip p).
    + apply trimmed_fmap; [apply ascii_upper_space|apply strip_trimmed].
    + apply list.Forall_forall. intros c Hc.
      apply list_elem_of_fmap in Hc as (x & -> & Hx).
      destruct (Hcs x Hx). by apply ascii_upper_clean.
Qed.

(** X13 at sample data: mixed case, padding, an empty entry. *)
Lemma parsed_symbols_clean_witness :
  parse_symbols (λ s, s) (lit " aapl, Msft ,,nvda") = [lit "AAPL"; lit "MSFT"; lit "NVDA"] ∧
  Forall (λ sym, sym ≠ [] ∧ trimmed sym)
    (parse_symbols (λ s, s) (lit " aapl, Msft ,,nvda")).
Proof.
  split; [reflexivity|].
  destruct (parsed_symbols_clean (λ s, s) (lit " aapl, Msft ,,nvda") eq_refl)
    as (_ & _ & Hall).
  eapply list.Forall_impl; [exact Hall|]. by intros sym (? & ? & _).
Defined.

(** ** The market-data proxy: quotes *)

Lemma assoc_dict_set {V} (k : str) (v : V) kv k' :
  assoc k' (dict_set k v kv) = if decide (k = k') then Some v else assoc k' kv.
Proof.
  induction kv as [|[k0 v0] kv IH]; cbn.
  - by repeat case_decide.
  - destruct (decide (k0 = k)) as [->|Hk0]; cbn.
    + by repeat case_decide.
    + rewrite IH. repeat case_decide; congruence.
Qed.

Section QuoteFacts.

Context (unicode_upper : str → str) (num float : Type).
Context (py_float : json num → option float) (FINNHUB_KEY : str).
Context (get_quote : nat → QuoteQuery → option (json num)).

Local Abbreviation query := (quote_query FINNHUB_KEY).
Local Abbreviation answered := (quoted num float py_float FINNHUB_KEY get_quote).
Local Abbreviation loop := (quotes_loop num float py_float FINNHUB_KEY get_quote).

Lemma quoted_more calls more k v :
  answered calls k v → answered (calls ++ more) k v.
Proof.
  intros (n & obj & x & Hn & ?). exists n, obj, x.
  split; [by apply lookup_app_l_Some|done].
Qed.

Lemma quotes_loop_spec syms out calls r calls' :
  loop syms out calls = (r, calls') →
  calls' `prefix_of` calls ++ (query <$> syms) ∧
  ∀ kv, r = Some kv →
    calls' = calls ++ (query <$> syms) ∧
    ((∀ k v, assoc k out = Some v → answered calls k v) →
     ∀ k v, assoc k kv = Some v → answered calls' k v).
Proof.
  revert out calls r calls'.
  induction syms as [|sym rest IH]; intros out calls r calls';
    cbn [quotes_loop fmap list_fmap].
  { intros [= <- <-]. rewrite app_nil_r. split; [done|].
    intros kv [= <-]. by split. }
  assert (Hstop : calls ++ [mkQuoteQuery sym FINNHUB_KEY]
                  `prefix_of` calls ++ query sym :: (query <$> rest))
    by (apply prefix_app; by exists (query <$> rest)).
  assert (Hnext : ∀ out',
            (∀ k v, assoc k out' = Some v →
                    assoc k out = Some v ∨
                    answered (calls ++ [mkQuoteQuery sym FINNHUB_KEY]) k v) →
            loop rest out' (calls ++ [mkQuoteQuery sym FINNHUB_KEY]) = (r, calls') →
            calls' `prefix_of` calls ++ query sym :: (query <$> rest) ∧
            ∀ kv, r = Some kv →
              calls' = calls ++ query sym :: (query <$> rest) ∧
              ((∀ k v, assoc k out = Some v → answered calls k v) →
               ∀ k v, assoc k kv = Some v → answered calls' k v)).
  { intros out' Hout' Hrun. destruct (IH _ _ _ _ Hrun) as (Hpre & Hkv).
    rewrite <- app_assoc in Hpre. split; [exact Hpre|].
    intros kv ->. destruct (Hkv kv eq_refl) as (-> & Hinv).
    split; [by rewrite <- app_assoc|].
    intros Hout k v Hk. apply Hinv; [|done].
    intros k0 v0 [H0|H0]%Hout'; [|done]. by apply quoted_more, Hout. }
  destruct (get_quote (length calls) (mkQuoteQuery sym FINNHUB_KEY))
    as [j|] eqn:Hj; [|by intros [= <- <-]].
  destruct (py_contains num 99%N j) as [[|]|]; [| |by intros [= <- <-]];
    [|apply Hnext; auto].
  destruct (py_getitem num [99%N] j) as [x|] eqn:Hx; [|by intros [= <- <-]].
  assert (Hobj : ∃ obj, j = JObj obj ∧ assoc [99%N] obj = Some x)
    by (destruct j; try done; eauto).
  destruct Hobj as (obj & -> & Hc).
  assert (Hprice : ∀ price, py_float x = Some price →
            loop rest (dict_set sym price out)
              (calls ++ [mkQuoteQuery sym FINNHUB_KEY]) = (r, calls') →
            calls' `prefix_of` calls ++ query sym :: (query <$> rest) ∧
            ∀ kv, r = Some kv →
              calls' = calls ++ query sym :: (query <$> rest) ∧
              ((∀ k v, assoc k out = Some v → answered calls k v) →
               ∀ k v, assoc k kv = Some v → answered calls' k v)).
  { intros price Hp. apply Hnext. intros k v.
    rewrite assoc_dict_set. case_decide as Hk; [|auto].
    intros [= <-]. subst k. right. exists (length calls), obj, x.
    split; [by apply list_lookup_middle|done]. }
  destruct x; (destruct (py_float _) as [price|] eqn:Hp;
    [by apply Hprice|by intros [= <- <-]]) || (apply Hnext; auto).
Qed.

(** X14. [api_stocks_quotes] calls the upstream for the parsed symbols in
    their order, once each time a symbol is listed, and for nothing else:
    the calls made are a prefix of that list, all of it when an answer is
    returned, and none at all when no key is configured, in which case the
    answer is empty.  Every price of a returned answer stands under a
    parsed symbol and is the conversion of the ["c"] of an object the
    upstream gave for that symbol during this request. *)
Theorem quotes_come_from_upstream symbols out calls :
  api_stocks_quotes unicode_upper num float py_float FINNHUB_KEY get_quote
    symbols = (out, calls) →
  (FINNHUB_KEY = [] → out = Some [] ∧ calls = []) ∧
  calls `prefix_of` (query <$> parse_symbols unicode_upper symbols) ∧
  ∀ kv, out = Some kv →
    (FINNHUB_KEY ≠ [] →
     calls = query <$> parse_symbols unicode_upper symbols) ∧
    ∀ k v, assoc k kv = Some v →
      k ∈ parse_symbols unicode_upper symbols ∧ answered calls k v.
Proof.
  unfold api_stocks_quotes. case_bool_decide as Hkey.
  - intros [= <- <-]. split_and!; [done|apply prefix_nil|].
    intros kv [= <-]. split; [done|]. by intros k v.
  - intros Hrun. destruct (quotes_loop_spec _ _ _ _ _ Hrun) as (Hpre & Hkv).
    cbn [app] in Hpre, Hkv. split_and!; [done|done|].
    intros kv ->. destruct (Hkv kv eq_refl) as (-> & Hinv).
    split; [done|]. intros k v Hk.
    assert (Hq : answered (query <$> parse_symbols unicode_upper symbols) k v)
      by (apply Hinv; [by intros k0 v0|done]).
    split; [|done]. destruct Hq as (n & _ & _ & Hn & _).
    apply list_lookup_fmap_Some in Hn as (s & Hs & Heq).
    unfold quote_query in Heq. simplify_eq. by eapply list_elem_of_lookup_2.
Qed.

End QuoteFacts.
(** X14 at sample data: AAPL is listed twice and quoted once; MSFT has no
    price upstream. *)
Lemma quotes_come_from_upstream_witness :
  fst (StocksSample.quotes (lit " aapl, msft ,,AAPL"))
  = Some [(lit "AAPL", 190)] ∧
  length (snd (StocksSample.quotes (lit " aapl, msft ,,AAPL"))) = 3%nat ∧
  lit "AAPL" ∈ parse_symbols (λ s, s) (lit " aapl, msft ,,AAPL").
Proof.
  split; [reflexivity|]. split; [reflexivity|].
  destruct (quotes_come_from_upstream (λ s, s) Z Z StocksSample.int_of
              StocksSample.key StocksSample.quotes_upstream
              (lit " aapl, msft ,,AAPL") _ _ eq_refl) as (_ & _ & Hkv).
  destruct (Hkv _ eq_refl) as (_ & Hk).
  by destruct (Hk (lit "AAPL") 190 eq_refl).
Defined.

(** ** The market-data proxy: candles *)

Section CandleFacts.

Context (unicode_lower unicode_upper : str → str) (num float : Type).
Context (num_truthy : num → bool).
Context (py_int : json num → option Z) (py_float : json num → option float).
Context (FINNHUB_KEY : str) (get_candle : CandleQuery → option (json num)).

Local Abbreviation column k kv := (or_empty num num_truthy (assoc [k] kv)).
Local Abbreviation candles :=
  (api_stocks_candles unicode_lower unicode_upper num float num_truthy py_int
     py_float FINNHUB_KEY get_candle).

Lemma not_ok_false (x : option (json num)) :
  not_ok num x = false → x = Some (JStr (lit "ok")).
Proof.
  destruct x as [[]|]; try done. cbn. intros H%negb_false_iff.
  apply bool_decide_eq_true in H. by subst.
Qed.

(** X15. [api_stocks_candles] makes no upstream call and answers with no
    candle when no key is configured.  Otherwise it makes exactly one call:
    for the symbol stripped and in upper case, at a resolution of the
    table, over the three days (259200 seconds) that end now.  When it
    returns candles, the upstream answered with an object whose ["s"] is
    ["ok"]; there are as many candles as the shortest of the five columns
    ["t"], ["o"], ["h"], ["l"], ["c"] is long, what the longer columns have
    beyond that is dropped, and candle [i] is made of entry [i] of each
    column, its time being [int(t[i])] times 1000. *)
Theorem candles_follow_shortest_column now symbol tf out calls :
  candles now symbol tf = (out, calls) →
  (FINNHUB_KEY = [] → out = Some [] ∧ calls = []) ∧
  (FINNHUB_KEY ≠ [] →
   calls = [mkCandleQuery (upper unicode_upper (strip symbol))
              (_tf_to_finnhub_res unicode_lower tf)
              (now - 259200) now FINNHUB_KEY]) ∧
  ∀ cs, out = Some cs → cs ≠ [] →
    ∃ kv nt no nh nl nc,
      get_candle (mkCandleQuery (upper unicode_upper (strip symbol))
                    (_tf_to_finnhub_res unicode_lower tf)
                    (now - 259200) now FINNHUB_KEY) = Some (JObj kv) ∧
      assoc [115%N] kv = Some (JStr (lit "ok")) ∧
      py_len num (column 116%N kv) = Some nt ∧
      py_len num (column 111%N kv) = Some no ∧
      py_len num (column 104%N kv) = Some nh ∧
      py_len num (column 108%N kv) = Some nl ∧
      py_len num (column 99%N kv) = Some nc ∧
      length cs = Nat.min nt (Nat.min no (Nat.min nh (Nat.min nl nc))) ∧
      ∀ i c, cs !! i = Some c →
        candle_at num float py_int py_float (column 116%N kv)
          (column 111%N kv) (column 104%N kv) (column 108%N kv)
          (column 99%N kv) i = Some c ∧
        ∃ ti tz, py_index num (column 116%N kv) i = Some ti ∧
                 py_int ti = Some tz ∧ candle_t c = tz * 1000.
Proof.
  unfold api_stocks_candles. case_bool_decide as Hkey.
  { intros [= <- <-]. split_and!; [done|done|]. by intros cs [= <-]. }
  change (3 * 24 * 60 * 60) with 259200.
  set (q := mkCandleQuery _ _ _ _ _).
  destruct (get_candle q) as [[| | | | |kv]|] eqn:Hq;
    try (intros [= <- <-]; split_and!; [done|done|]; by intros cs [=]).
  destruct (not_ok num (assoc [115%N] kv)) eqn:Hs.
  { intros [= <- <-]. split_and!; [done|done|]. by intros cs [= <-]. }
  apply not_ok_false in Hs.
  destruct (py_len num (column 116%N kv)) as [nt|] eqn:Ht;
    [|intros [= <- <-]; split_and!; [done|done|]; by intros cs [=]].
  destruct (py_len num (column 111%N kv)) as [no|] eqn:Ho;
    [|intros [= <- <-]; split_and!; [done|done|]; by intros cs [=]].
  destruct (py_len num (column 104%N kv)) as [nh|] eqn:Hh;
    [|intros [= <- <-]; split_and!; [done|done|]; by intros cs [=]].
  destruct (py_len num (column 108%N kv)) as [nl|] eqn:Hl;
    [|intros [= <- <-]; split_and!; [done|done|]; by intros cs [=]].
  destruct (py_len num (column 99%N kv)) as [nc|] eqn:Hc;
    [|intros [= <- <-]; split_and!; [done|done|]; by intros cs [=]].
  intros [= <- <-]. split_and!; [done|done|].
  intros cs Hcs _. apply mapM_Some in Hcs.
  exists kv, nt, no, nh, nl, nc. split_and!; try done.
  - apply Forall2_length in Hcs. by rewrite length_seq in Hcs.
  - intros i c Hi.
    destruct (Forall2_lookup_r _ _ _ _ _ Hcs Hi) as (j & Hj & Hat).
    apply lookup_seq in Hj as [-> _]. cbn in Hat. split; [done|].
    unfold candle_at in Hat.
    destruct (py_index num (column 116%N kv) i) as [ti|] eqn:Hti; [|done].
    cbn in Hat. destruct (py_int ti) as [tz|] eqn:Htz; [|done].
    exists ti, tz. split_and!; [done|done|].
    by simplify_option_eq.
Qed.

End CandleFacts.

(** X15 at sample data: three time stamps and two opening prices make two
    candles. *)
Lemma candles_follow_shortest_column_witness :
  candle_t <$> default [] (fst (StocksSample.candles 1000000 (lit " aapl ")
                                  (Some (lit "1H"))))
  = [10000; 70000] ∧
  snd (StocksSample.candles 1000000 (lit " aapl ") (Some (lit "1H")))
  = [mkCandleQuery (lit "AAPL") (lit "60") 740800 1000000 StocksSample.key].
Proof.
  split; [reflexivity|].
  destruct (candles_follow_shortest_column (λ s, s) (λ s, s) Z Z
              StocksSample.nonzero StocksSample.int_of StocksSample.int_of
              StocksSample.key StocksSample.candles_upstream
              1000000 (lit " aapl ") (Some (lit "1H"))
              (fst (StocksSample.candles 1000000 (lit " aapl ")
                      (Some (lit "1H"))))
              (snd (StocksSample.candles 1000000 (lit " aapl ")
                      (Some (lit "1H"))))
              eq_refl)
    as (_ & Hcall & _).
  by apply Hcall.
Defined.

(** ** A verified address is taken for good *)

Lemma handle_lookup_email pwd_hash pwd_verify req env w e i u :
  lookup_email e (db w) = Some (i, u) →
  ∃ u', lookup_email e (db (snd (handle pwd_hash pwd_verify req env w)))
        = Some (i, u') ∧
        (is_verified u = true → is_verified u' = true).
Proof.
  intros Hf. apply list_find_Some in Hf as (Hi & He & Hmin).
  destruct (handle_frame pwd_hash pwd_verify req env w i u Hi)
    as (u' & Hi' & (_ & He' & _) & Hver).
  exists u'. split; [|done]. apply list_find_Some. split_and!; [done|congruence|].
  intros j y Hj Hlt.
  destruct (lookup_lt_is_Some_2 (rows (db w)) j) as [x Hx].
  { apply lookup_lt_Some in Hi. lia. }
  destruct (handle_frame pwd_hash pwd_verify req env w j x Hx)
    as (y' & Hj' & (_ & Hy' & _) & _).
  rewrite Hj in Hj'. injection Hj' as <-. rewrite Hy'. by eapply Hmin.
Qed.

Lemma run_lookup_email pwd_hash pwd_verify reqs w e i u :
  lookup_email e (db w) = Some (i, u) →
  ∃ u', lookup_email e (db (run pwd_hash pwd_verify reqs w)) = Some (i, u') ∧
        (is_verified u = true → is_verified u' = true).
Proof.
  revert w u. induction reqs as [|[req env] reqs IH]; intros w u Hf.
  - by exists u.
  - cbn [run].
    destruct (handle_lookup_email pwd_hash pwd_verify req env w e i u Hf)
      as (v & Hv & Hver).
    destruct (IH _ _ Hv) as (u' & Hu' & Hver'). exists u'. auto.
Qed.

(** X16. Once an address belongs to a verified account, no sequence of
    requests frees it: whatever has been served since, a [signup] for that
    address, with any password and referral code, is answered with
    [AlreadyRegistered] and changes nothing. *)
Theorem verified_address_stays_taken pwd_hash pwd_verify reqs w i u body env :
  lookup_email (su_email body) (db w) = Some (i, u) →
  is_verified u = true →
  serve (signup pwd_hash body) env (run pwd_hash pwd_verify reqs w)
  = (Raise AlreadyRegistered, run pwd_hash pwd_verify reqs w).
Proof.
  intros Hf Hu.
  destruct (run_lookup_email pwd_hash pwd_verify reqs w _ i u Hf)
    as (u' & Hf' & Hver).
  by rewrite signup_eq, Hf', (Hver Hu).
Qed.

(** X16 at sample data: Alice is verified; after a password reset she
    still cannot be signed up again. *)
Lemma verified_address_stays_taken_witness :
  fst (serve (signup plain_hash (mkSignupRequest Sample.alice (lit "x") None))
         Sample.env_late
         (run plain_hash plain_verify
            [(PostPasswordResetConfirm
                (mkPasswordResetConfirm Sample.alice (lit "654321") (lit "pw2")),
              Sample.env1);
             (PostLogin (mkLoginRequest Sample.alice (lit "pw2")), Sample.env1)]
            Sample.alice_verified))
  = Raise AlreadyRegistered.
Proof.
  rewrite (verified_address_stays_taken plain_hash plain_verify
             [(PostPasswordResetConfirm
                 (mkPasswordResetConfirm Sample.alice (lit "654321") (lit "pw2")),
               Sample.env1);
              (PostLogin (mkLoginRequest Sample.alice (lit "pw2")), Sample.env1)]
             Sample.alice_verified 0%nat (verified Sample.alice_pending)
             (mkSignupRequest Sample.alice (lit "x") None) Sample.env_late
             eq_refl eq_refl).
  reflexivity.
Defined.

(** ** A referral code that does not fit *)


